(** * google-cloud-go: the Disks REST client and the Spanner session-pool
      telemetry helpers

    A shallow embedding of [compute/apiv1/disks_client.go].  The file holds
    two unrelated Go packages:

    - package [compute]: the generated REST binding of the Disks API
      (13 operations that build a URL, issue an HTTP call and decode the
      answer);
    - package [spanner]: the OpenCensus measures and views of the session
      pool, the switch that enables the GFE latency metrics, and
      [captureGFELatencyStats], which parses the [server-timing] header.

    The Go standard library and OpenCensus are not part of the sources.  The
    functions of them that the code calls are modelled here after their
    documented behaviour ([strings], [strconv], [net/url], OpenCensus [tag]
    and [stats]); collaborators whose behaviour the code does not depend on
    (the view registry, the HTTP transport, protojson) are interfaces. *)

From Stdlib Require Import ZArith NArith String Ascii List Lia QArith.
From stdpp Require Import base option gmap strings list pretty sorting.

Local Open Scope Z_scope.

(** ** The Go standard library *)

(** Go strings are byte sequences: [string] is a list of 8-bit [ascii]. *)

Module strings.

(** [len(s)] in bytes. *)
Definition len (s : string) : Z := Z.of_nat (String.length s).

(** [strings.HasPrefix(s, prefix)]:
    [len(s) >= len(prefix) && s[0:len(prefix)] == prefix]. *)
Fixpoint HasPrefix (s prefix : string) {struct prefix} : bool :=
  match prefix, s with
  | EmptyString, _ => true
  | String _ _, EmptyString => false
  | String p prefix', String c s' => Ascii.eqb c p && HasPrefix s' prefix'
  end.

(** [s[n:]]. *)
Fixpoint slice_from (n : nat) (s : string) : string :=
  match n, s with
  | O, _ => s
  | S n', String _ s' => slice_from n' s'
  | S _, EmptyString => EmptyString
  end.

(** [strings.TrimPrefix(s, prefix)]: [s] without the leading [prefix];
    [s] unchanged when it does not start with [prefix]. *)
Definition TrimPrefix (s prefix : string) : string :=
  if HasPrefix s prefix then slice_from (String.length prefix) s else s.

(** ASCII lower-casing, as [strings.ToLower] acts on the ASCII keys used
    here. *)
Definition lower (c : ascii) : ascii :=
  let n := nat_of_ascii c in
  if (65 <=? n)%nat && (n <=? 90)%nat then ascii_of_nat (n + 32) else c.

Fixpoint ToLower (s : string) : string :=
  match s with
  | EmptyString => EmptyString
  | String c s' => String (lower c) (ToLower s')
  end.

End strings.

Module strconv.

(** [strconv.IntSize]: [int] is 64 bits wide. *)
Definition intSize : Z := 64.
Definition maxUint64 : Z := 2 ^ 64 - 1.

Inductive ErrKind := ErrSyntax | ErrRange.

(** [*strconv.NumError]. *)
Record NumError := mkNumError { Func : string; Num : string; Err : ErrKind }.

Definition isDigit (c : ascii) : bool :=
  let n := nat_of_ascii c in (48 <=? n)%nat && (n <=? 57)%nat.

Definition digit (c : ascii) : Z := Z.of_nat (nat_of_ascii c) - 48.

(** The loop of [ParseUint(s, 10, 64)]: bytes other than [0-9] are a syntax
    error (an underscore too, the base being explicit); a value past
    [maxUint64] is a range error, reported at the digit that overflows. *)
Fixpoint parseUintLoop (n : Z) (s : string) : Z * option ErrKind :=
  match s with
  | EmptyString => (n, None)
  | String c s' =>
      if isDigit c then
        if n >=? maxUint64 / 10 + 1 then (maxUint64, Some ErrRange)
        else
          let n1 := n * 10 + digit c in
          if n1 >? maxUint64 then (maxUint64, Some ErrRange)
          else parseUintLoop n1 s'
      else (0, Some ErrSyntax)
  end.

Definition ParseUint (s : string) : Z * option ErrKind :=
  match s with
  | EmptyString => (0, Some ErrSyntax)
  | _ => parseUintLoop 0 s
  end.

Definition isSign (c : ascii) : bool :=
  Ascii.eqb c "+"%char || Ascii.eqb c "-"%char.

(** [ParseInt(s, 10, 0)]. *)
Definition ParseInt (s : string) : Z * option ErrKind :=
  match s with
  | EmptyString => (0, Some ErrSyntax)
  | String c rest =>
      let neg := Ascii.eqb c "-"%char in
      let body := if isSign c then rest else s in
      let cutoff := 2 ^ (intSize - 1) in
      match ParseUint body with
      | (_, Some ErrSyntax) => (0, Some ErrSyntax)
      | (un, _) =>
          if negb neg && (un >=? cutoff) then (cutoff - 1, Some ErrRange)
          else if neg && (un >? cutoff) then (- cutoff, Some ErrRange)
          else (if neg then - un else un, None)
      end
  end.

(** The fast path of [Atoi]: fewer than 19 bytes, no overflow possible. *)
Fixpoint atoiLoop (n : Z) (s : string) : option Z :=
  match s with
  | EmptyString => Some n
  | String c s' =>
      if isDigit c then atoiLoop (n * 10 + digit c) s' else None
  end.

(** [strconv.Atoi(s)]: the value and the error ([None] is Go's [nil]). *)
Definition Atoi (s : string) : Z * option NumError :=
  let sLen := strings.len s in
  if (0 <? sLen) && (sLen <? 19) then
    match s with
    | EmptyString => (0, Some (mkNumError "Atoi" s ErrSyntax))
    | String c rest =>
        let body := if isSign c then rest else s in
        match body with
        | EmptyString => (0, Some (mkNumError "Atoi" s ErrSyntax))
        | _ =>
            match atoiLoop 0 body with
            | None => (0, Some (mkNumError "Atoi" s ErrSyntax))
            | Some n => (if Ascii.eqb c "-"%char then - n else n, None)
            end
        end
    end
  else
    match ParseInt s with
    | (i64, Some e) => (i64, Some (mkNumError "Atoi" s e))
    | (i64, None) => (i64, None)
    end.

End strconv.

(** The spec's [<N>], "a valid non-negative base-10 integer": a non-empty
    string of decimal digits, and the number it writes. *)
Definition isDecimal (s : string) : bool :=
  negb (String.eqb s "") && forallb strconv.isDigit (list_ascii_of_string s).

Definition decimalValue (s : string) : Z :=
  fold_left (λ acc c, acc * 10 + strconv.digit c) (list_ascii_of_string s) 0.

(** [e != nil]. *)
Definition notNil {A} (e : option A) : bool :=
  match e with
  | Some _ => true
  | None => false
  end.

(** [int64(x)] for [x : int]: the value wrapped to 64 bits, two's
    complement. *)
Definition int64 (x : Z) : Z := (x + 2 ^ 63) mod 2 ^ 64 - 2 ^ 63.

(** ** gRPC metadata *)

Module metadata.

(** [metadata.MD] is [map[string][]string]. *)
Abbreviation MD := (gmap string (list string)).

(** [md.Get(k)]: the values under the lower-cased key, [nil] when there
    are none. *)
Definition Get (md : MD) (k : string) : list string :=
  default [] (md !! strings.ToLower k).

(** The loop of [metadata.Pairs]: each key is lower-cased and its value
    appended to the values of the key. *)
Fixpoint pairsLoop (kv : list string) (md : MD) : option MD :=
  match kv with
  | [] => Some md
  | k :: v :: rest =>
      pairsLoop rest
        (<[strings.ToLower k :=
             default [] (md !! strings.ToLower k) ++ [v]]> md)
  | [_] => None
  end.

(** [metadata.Pairs(kv...)]; it panics on an odd number of strings
    ([None]). *)
Definition Pairs (kv : list string) : option MD := pairsLoop kv ∅.

End metadata.

(** ** OpenCensus: tags, measures, views *)

Module tag.

(** A [tag.Key] is identified by its name. *)
Abbreviation Key := string (only parsing).

(** [tag.Map]: the tags a context carries, one value per key. *)
Abbreviation Map := (gmap string string).

Inductive error :=
| errInvalidKeyName
| errInvalidValue
(** [tag.New] found an invalid entry in the map of the incoming context. *)
| errInvalidContextTag.

(** A [context.Context], as far as this code looks into it: the tag map it
    carries ([None]: no map, or a nil one). *)
Record Context := mkContext { tags : option Map }.

Definition maxKeyLength : Z := 255.

(** Printable ASCII: every byte between 32 and 126. *)
Fixpoint isASCII (s : string) : bool :=
  match s with
  | EmptyString => true
  | String c s' =>
      let n := nat_of_ascii c in
      (32 <=? n)%nat && (n <=? 126)%nat && isASCII s'
  end.

Definition checkKeyName (name : string) : bool :=
  negb (strings.len name =? 0) && (strings.len name <=? maxKeyLength)
  && isASCII name.

Definition checkValue (v : string) : bool :=
  (strings.len v <=? maxKeyLength) && isASCII v.

(** [m.insert(k, v)]: a key that is already in the map keeps its value. *)
Definition insert (k : Key) (v : string) (m : Map) : Map :=
  match m !! k with
  | Some _ => m
  | None => <[k := v]> m
  end.

(** [m.upsert(k, v)]: the value of [k] is [v] afterwards. *)
Definition upsert (k : Key) (v : string) (m : Map) : Map := <[k := v]> m.

(** The mutators the code builds. *)
Inductive Mutator :=
| Insert (k : Key) (v : string)
| Upsert (k : Key) (v : string).

(** [Insert] "doesn't update the value" of a key that exists; [Upsert]
    "inserts the value if [k] doesn't exist already" and "mutates the value
    if [k] already exists".  Both refuse an invalid value. *)
Definition Mutate (mu : Mutator) (m : Map) : Map + error :=
  match mu with
  | Insert k v =>
      if checkValue v then inl (insert k v m) else inr errInvalidValue
  | Upsert k v =>
      if checkValue v then inl (upsert k v m) else inr errInvalidValue
  end.

Fixpoint applyMutators (mus : list Mutator) (m : Map) : Map + error :=
  match mus with
  | [] => inl m
  | mu :: rest =>
      match Mutate mu m with
      | inl m' => applyMutators rest m'
      | inr e => inr e
      end
  end.

Definition FromContext (ctx : Context) : option Map := tags ctx.

Definition NewContext (ctx : Context) (m : option Map) : Context :=
  mkContext m.

Definition validEntry (k v : string) : bool := checkKeyName k && checkValue v.

(** The tags of a context are those a [tag.Map] can hold: the library only
    builds maps of valid keys and values. *)
Definition wellFormed (ctx : Context) : Prop :=
  map_Forall (λ k v, validEntry k v = true) (default ∅ (FromContext ctx)).

(** [tag.New(ctx, mutator...)]: copies the map of [ctx], checking every
    entry, applies the mutators in order, and returns the new context; on
    an error it returns [ctx] itself with the error. *)
Definition New (ctx : Context) (mus : list Mutator) : Context * option error :=
  let orig := default ∅ (FromContext ctx) in
  if bool_decide (map_Forall (λ k v, validEntry k v = true) orig) then
    match applyMutators mus orig with
    | inl m => (NewContext ctx (Some m), None)
    | inr e => (ctx, Some e)
    end
  else (ctx, Some errInvalidContextTag).

End tag.

Module stats.

Definition UnitDimensionless : string := "1".
Definition UnitMilliseconds : string := "ms".

(** [*stats.Int64Measure], as [stats.Int64(name, description, unit)] makes
    it. *)
Record Int64Measure := Int64 {
  Name : string;
  Description : string;
  Unit : string;
}.

(** A [stats.Measurement]: the measure and the value, a float64.  Every
    measurement made here comes from an int64, so its value is a whole
    number: [value] is the integer that the float64 equals. *)
Record Measurement := mkMeasurement { measure : Int64Measure; value : Z }.

(** [float64(v)] for an int64 [v], as the integer it equals: a float64
    keeps 53 bits, and the conversion rounds to the nearest value that
    fits, to the even one of two that are equally near. *)
Definition float64 (v : Z) : Z :=
  let a := Z.abs v in
  if a <? 2 ^ 53 then v
  else
    let e := Z.log2 a - 52 in
    let q := Z.shiftr a e in
    let r := Z.land a (Z.ones e) in
    let half := 2 ^ (e - 1) in
    let q := if (half <? r) || ((r =? half) && Z.odd q) then q + 1 else q in
    Z.sgn v * Z.shiftl q e.

(** [m.M(v)]: [Measurement{v: float64(v), m: m, desc: m.desc}]. *)
Definition M (m : Int64Measure) (v : Z) : Measurement :=
  mkMeasurement m (float64 v).

End stats.

Module view.

Inductive Aggregation :=
| LastValue
| Count
| Distribution (bounds : list Q).

Record View := mkView {
  Name : string;
  Description : string;
  Measure : stats.Int64Measure;
  Aggregation_ : Aggregation;
  TagKeys : list string;
}.

End view.

(** ** Collaborators of package spanner *)

(** A Go [error] value of package spanner: one of the errors its callees
    return. *)
Inductive error :=
| NumError (e : strconv.NumError)
| TagError (e : tag.error)
| RegistrationError (msg : string)
| ParseDatabaseNameError (msg : string).

(** The view registry of OpenCensus ([view.Register], [view.Unregister]):
    an external service with a state of its own. *)
Class ViewRegistry := {
  Registry : Type;
  view_Register : list view.View → Registry → Registry * option error;
  view_Unregister : list view.View → Registry → Registry;
}.

(** What [getCommonTags] uses of the rest of the repository, which is not in
    the sources: [parseDatabaseName] of package spanner, returning project,
    instance, database and an error, and the constant [version.Repo]. *)
Class Repository := {
  parseDatabaseName : string → string * string * string * option error;
  version_Repo : string;
}.

(** ** Package spanner: session-pool statistics *)

Module spanner.

Definition statsPrefix : string := "cloud.google.com/go/spanner/".

Definition tagKeyClientID : tag.Key := "client_id".
Definition tagKeyDatabase : tag.Key := "database".
Definition tagKeyInstance : tag.Key := "instance_id".
Definition tagKeyLibVersion : tag.Key := "library_version".
Definition tagKeyType : tag.Key := "type".
Definition tagCommonKeys : list tag.Key :=
  [tagKeyClientID; tagKeyDatabase; tagKeyInstance; tagKeyLibVersion].
Definition tagKeyMethod : tag.Key := "grpc_client_method".

(** *** Measures and views *)

Definition OpenSessionCount : stats.Int64Measure :=
  stats.Int64 (statsPrefix +:+ "open_session_count")
    "Number of sessions currently opened" stats.UnitDimensionless.

Definition OpenSessionCountView : view.View :=
  view.mkView "" "" OpenSessionCount view.LastValue tagCommonKeys.

Definition MaxAllowedSessionsCount : stats.Int64Measure :=
  stats.Int64 (statsPrefix +:+ "max_allowed_sessions")
    "The maximum number of sessions allowed. Configurable by the user."
    stats.UnitDimensionless.

Definition MaxAllowedSessionsCountView : view.View :=
  view.mkView "" "" MaxAllowedSessionsCount view.LastValue tagCommonKeys.

Definition SessionsCount : stats.Int64Measure :=
  stats.Int64 (statsPrefix +:+ "num_sessions_in_pool")
    "The number of sessions currently in use." stats.UnitDimensionless.

Definition SessionsCountView : view.View :=
  view.mkView "" "" SessionsCount view.LastValue
    (tagCommonKeys ++ [tagKeyType]).

Definition MaxInUseSessionsCount : stats.Int64Measure :=
  stats.Int64 (statsPrefix +:+ "max_in_use_sessions")
    "The maximum number of sessions in use during the last 10 minute interval."
    stats.UnitDimensionless.

Definition MaxInUseSessionsCountView : view.View :=
  view.mkView "" "" MaxInUseSessionsCount view.LastValue tagCommonKeys.

Definition GetSessionTimeoutsCount : stats.Int64Measure :=
  stats.Int64 (statsPrefix +:+ "get_session_timeouts")
    "The number of get sessions timeouts due to pool exhaustion."
    stats.UnitDimensionless.

Definition GetSessionTimeoutsCountView : view.View :=
  view.mkView "" "" GetSessionTimeoutsCount view.Count tagCommonKeys.

Definition AcquiredSessionsCount : stats.Int64Measure :=
  stats.Int64 (statsPrefix +:+ "num_acquired_sessions")
    "The number of sessions acquired from the session pool."
    stats.UnitDimensionless.

Definition AcquiredSessionsCountView : view.View :=
  view.mkView "" "" AcquiredSessionsCount view.Count tagCommonKeys.

Definition ReleasedSessionsCount : stats.Int64Measure :=
  stats.Int64 (statsPrefix +:+ "num_released_sessions")
    "The number of sessions released by the user and pool maintainer."
    stats.UnitDimensionless.

Definition ReleasedSessionsCountView : view.View :=
  view.mkView "" "" ReleasedSessionsCount view.Count tagCommonKeys.

Definition GFELatency : stats.Int64Measure :=
  stats.Int64 (statsPrefix +:+ "gfe_latency")
    "Latency between Google's network receiving an RPC and reading back the first byte of the response"
    stats.UnitMilliseconds.

Definition GFELatencyView : view.View :=
  view.mkView "cloud.google.com/go/spanner/gfe_latency"
    "Latency between Google's network receives an RPC and reads back the first byte of the response"
    GFELatency
    (view.Distribution
       [0.0; 0.01; 0.05; 0.1; 0.3; 0.6; 0.8; 1.0; 2.0; 3.0; 4.0; 5.0; 6.0;
        8.0; 10.0; 13.0; 16.0; 20.0; 25.0; 30.0; 40.0; 50.0; 65.0; 80.0;
        100.0; 130.0; 160.0; 200.0; 250.0; 300.0; 400.0; 500.0; 650.0;
        800.0; 1000.0; 2000.0; 5000.0; 10000.0; 20000.0; 50000.0;
        100000.0]%Q)
    (tagCommonKeys ++ [tagKeyMethod]).

Definition GFEHeaderMissingCount : stats.Int64Measure :=
  stats.Int64 (statsPrefix +:+ "gfe_header_missing_count")
    "Number of RPC responses received without the server-timing header, most likely means that the RPC never reached Google's network"
    stats.UnitDimensionless.

Definition GFEHeaderMissingCountView : view.View :=
  view.mkView "cloud.google.com/go/spanner/gfe_header_missing_count"
    "Number of RPC responses received without the server-timing header, most likely means that the RPC never reached Google's network"
    GFEHeaderMissingCount view.Count (tagCommonKeys ++ [tagKeyMethod]).

(** *** Effects

    What a function of the package does to the outside is a trace of
    events, oldest first: operations on the mutex [statsMu], accesses to
    the package variable [gfeLatencyMetricsEnabled], measurements handed
    to [stats.Record] with the tags of the recording context, and calls of
    the view registry. *)

Inductive Event :=
| EvLock
| EvUnlock
| EvRLock
| EvRUnlock
| EvFlagRead (b : bool)
| EvFlagWrite (b : bool)
| EvRecord (tags : option tag.Map) (m : stats.Measurement)
| EvRegister (views : list view.View)
| EvUnregister (views : list view.View).

Section Package.
Context `{ViewRegistry}.

(** The package variables that change, and the registry behind
    [view.Register]. *)
Record World := mkWorld {
  gfeLatencyMetricsEnabled : bool;
  registry : Registry;
}.

(** A computation: a result, the next world, the events it emits. *)
Definition Go (A : Type) : Type := World → A * World * list Event.

Definition ret {A} (a : A) : Go A := λ w, (a, w, []).

Definition bind {A B} (m : Go A) (k : A → Go B) : Go B :=
  λ w, let '(a, w1, e1) := m w in
       let '(b, w2, e2) := k a w1 in
       (b, w2, e1 ++ e2).

Definition emit (e : Event) : Go unit := λ w, (tt, w, [e]).

(** The three components of a finished computation. *)
Definition result {A} (r : A * World * list Event) : A := r.1.1.
Definition world {A} (r : A * World * list Event) : World := r.1.2.
Definition events {A} (r : A * World * list Event) : list Event := r.2.

Notation "'let*' x := m 'in' k" := (bind m (λ x, k))
  (at level 10, x name, m at level 100, k at level 200, only parsing).
Notation "m ;;; k" := (bind m (λ _, k))
  (at level 100, k at level 200, right associativity, only parsing).

(** [statsMu], a [sync.RWMutex]: its operations are events. *)
Definition statsMu_Lock : Go unit := emit EvLock.
Definition statsMu_Unlock : Go unit := emit EvUnlock.
Definition statsMu_RLock : Go unit := emit EvRLock.
Definition statsMu_RUnlock : Go unit := emit EvRUnlock.

Definition readFlag : Go bool :=
  λ w, (gfeLatencyMetricsEnabled w, w,
        [EvFlagRead (gfeLatencyMetricsEnabled w)]).

Definition writeFlag (b : bool) : Go unit :=
  λ w, (tt, mkWorld b (registry w), [EvFlagWrite b]).

(** [stats.Record(ctx, ms)]: the measurement goes to the backend with the
    tags of [ctx]. *)
Definition stats_Record (ctx : tag.Context) (m : stats.Measurement) : Go unit :=
  emit (EvRecord (tag.FromContext ctx) m).

Definition Register (views : list view.View) : Go (option error) :=
  λ w, let '(r, err) := view_Register views (registry w) in
       (err, mkWorld (gfeLatencyMetricsEnabled w) r, [EvRegister views]).

Definition Unregister (views : list view.View) : Go unit :=
  λ w, (tt,
        mkWorld (gfeLatencyMetricsEnabled w)
          (view_Unregister views (registry w)),
        [EvUnregister views]).

(** *** The functions of the package *)

Definition recordStat (ctx : tag.Context) (m : stats.Int64Measure) (n : Z)
  : Go unit :=
  stats_Record ctx (stats.M m n).

Definition EnableStatViews : Go (option error) :=
  Register
    [OpenSessionCountView; MaxAllowedSessionsCountView; SessionsCountView;
     MaxInUseSessionsCountView; GetSessionTimeoutsCountView;
     AcquiredSessionsCountView; ReleasedSessionsCountView].

Definition getGFELatencyMetricsFlag : Go bool :=
  statsMu_RLock ;;;
  let* b := readFlag in
  statsMu_RUnlock ;;;
  ret b.

Definition setGFELatencyMetricsFlag (enable : bool) : Go unit :=
  statsMu_Lock ;;;
  writeFlag enable ;;;
  statsMu_Unlock.

Definition EnableGfeLatencyView : Go (option error) :=
  setGFELatencyMetricsFlag true ;;;
  Register [GFELatencyView].

Definition EnableGfeHeaderMissingCountView : Go (option error) :=
  setGFELatencyMetricsFlag true ;;;
  Register [GFEHeaderMissingCountView].

Definition EnableGfeLatencyAndHeaderMissingCountViews : Go (option error) :=
  setGFELatencyMetricsFlag true ;;;
  Register [GFELatencyView; GFEHeaderMissingCountView].

Definition DisableGfeLatencyAndHeaderMissingCountViews : Go unit :=
  setGFELatencyMetricsFlag false ;;;
  Unregister [GFELatencyView; GFEHeaderMissingCountView].

Definition captureGFELatencyStats
    (ctx : tag.Context) (md : metadata.MD) (keyMethod : string)
  : Go (option error) :=
  if Z.of_nat (length (metadata.Get md "server-timing")) =? 0 then
    recordStat ctx GFEHeaderMissingCount 1 ;;;
    ret None
  else
    let serverTiming := nth 0 (metadata.Get md "server-timing") "" in
    let '(gfeLatency, err) :=
      strconv.Atoi (strings.TrimPrefix serverTiming "gfet4t7; dur=") in
    if negb (strings.HasPrefix serverTiming "gfet4t7; dur=") || notNil err
    then ret (NumError <$> err)
    else
      let ctx := tag.NewContext ctx (tag.FromContext ctx) in
      let '(ctx, err) := tag.New ctx [tag.Insert tagKeyMethod keyMethod] in
      match err with
      | Some e => ret (Some (TagError e))
      | None =>
          recordStat ctx GFELatency (int64 gfeLatency) ;;;
          ret None
      end.

(** [commonTags]: the key-value pairs that go with the GFELatency
    measure. *)
Record commonTags := mkCommonTags {
  clientID : string;
  database : string;
  instance : string;
  libVersion : string;
}.

Definition createContextAndCaptureGFELatencyMetrics
    (ctx : tag.Context) (ct : commonTags) (md : metadata.MD)
    (keyMethod : string)
  : Go (option error) :=
  let '(ctxGFE, err) :=
    tag.New ctx
      [tag.Upsert tagKeyClientID (clientID ct);
       tag.Upsert tagKeyDatabase (database ct);
       tag.Upsert tagKeyInstance (instance ct);
       tag.Upsert tagKeyLibVersion (libVersion ct)] in
  match err with
  | Some e => ret (Some (TagError e))
  | None => captureGFELatencyStats ctxGFE md keyMethod
  end.

(** Modelled from the spec: the type [sessionClient] is declared outside
    the sources; a session-pool client has an identity, [id], and the
    fully-qualified resource name of its database, [database]. *)
Record sessionClient := mkSessionClient {
  sc_id : string;
  sc_database : string;
}.

(** [None] is the nil pointer. *)
Definition getCommonTags `{Repository} (sc : sessionClient)
  : option commonTags :=
  let '(_, instance, database, err) := parseDatabaseName (sc_database sc) in
  match err with
  | Some _ => None
  | None => Some (mkCommonTags (sc_id sc) database instance version_Repo)
  end.

(** Modelled from the spec: the places where the RPC paths of the client
    attempt a capture are not in the sources.  The flag is "read before
    every latency-capture attempt", and nil tags mean "skip recording,
    not a hard failure". *)
Definition captureAtCallSite
    (ctx : tag.Context) (ct : option commonTags) (md : metadata.MD)
    (keyMethod : string)
  : Go (option error) :=
  let* enabled := getGFELatencyMetricsFlag in
  match enabled, ct with
  | true, Some ct =>
      createContextAndCaptureGFELatencyMetrics ctx ct md keyMethod
  | _, _ => ret None
  end.

(** *** The calls a client of the package can make *)

Inductive Call :=
| CallEnableStatViews
| CallEnableGfeLatencyView
| CallEnableGfeHeaderMissingCountView
| CallEnableGfeLatencyAndHeaderMissingCountViews
| CallDisableGfeLatencyAndHeaderMissingCountViews
| CallGetGFELatencyMetricsFlag
| CallSetGFELatencyMetricsFlag (enable : bool)
| CallRecordStat (ctx : tag.Context) (m : stats.Int64Measure) (n : Z)
| CallCaptureGFELatencyStats
    (ctx : tag.Context) (md : metadata.MD) (keyMethod : string)
| CallCreateContextAndCaptureGFELatencyMetrics
    (ctx : tag.Context) (ct : commonTags) (md : metadata.MD)
    (keyMethod : string)
| CallCaptureAtCallSite
    (ctx : tag.Context) (ct : option commonTags) (md : metadata.MD)
    (keyMethod : string).

(** The world after a call and the events of the call. *)
Definition run (c : Call) (w : World) : World * list Event :=
  match c with
  | CallEnableStatViews =>
      let '(_, w', evs) := EnableStatViews w in (w', evs)
  | CallEnableGfeLatencyView =>
      let '(_, w', evs) := EnableGfeLatencyView w in (w', evs)
  | CallEnableGfeHeaderMissingCountView =>
      let '(_, w', evs) := EnableGfeHeaderMissingCountView w in (w', evs)
  | CallEnableGfeLatencyAndHeaderMissingCountViews =>
      let '(_, w', evs) := EnableGfeLatencyAndHeaderMissingCountViews w in
      (w', evs)
  | CallDisableGfeLatencyAndHeaderMissingCountViews =>
      let '(_, w', evs) := DisableGfeLatencyAndHeaderMissingCountViews w in
      (w', evs)
  | CallGetGFELatencyMetricsFlag =>
      let '(_, w', evs) := getGFELatencyMetricsFlag w in (w', evs)
  | CallSetGFELatencyMetricsFlag enable =>
      let '(_, w', evs) := setGFELatencyMetricsFlag enable w in (w', evs)
  | CallRecordStat ctx m n =>
      let '(_, w', evs) := recordStat ctx m n w in (w', evs)
  | CallCaptureGFELatencyStats ctx md keyMethod =>
      let '(_, w', evs) := captureGFELatencyStats ctx md keyMethod w in
      (w', evs)
  | CallCreateContextAndCaptureGFELatencyMetrics ctx ct md keyMethod =>
      let '(_, w', evs) :=
        createContextAndCaptureGFELatencyMetrics ctx ct md keyMethod w in
      (w', evs)
  | CallCaptureAtCallSite ctx ct md keyMethod =>
      let '(_, w', evs) := captureAtCallSite ctx ct md keyMethod w in
      (w', evs)
  end.


(** *** The locking discipline of the flag

    The state of a readers-writer mutex: held by a writer, or by a
    number of readers. *)
Record RWMutex := mkRWMutex { writer : bool; readers : nat }.

Definition unlocked : RWMutex := mkRWMutex false 0.

(** [guarded mu evs]: run from the mutex state [mu], the trace [evs]
    locks only a free mutex, unlocks only what it holds, writes the flag
    only under the exclusive lock, reads it only under the shared lock,
    and leaves the mutex free. *)
Fixpoint guarded (mu : RWMutex) (evs : list Event) : bool :=
  match evs with
  | [] => negb (writer mu) && (readers mu =? 0)%nat
  | EvLock :: rest =>
      negb (writer mu) && (readers mu =? 0)%nat
      && guarded (mkRWMutex true 0) rest
  | EvUnlock :: rest => writer mu && guarded unlocked rest
  | EvRLock :: rest =>
      negb (writer mu) && guarded (mkRWMutex false (S (readers mu))) rest
  | EvRUnlock :: rest =>
      negb (readers mu =? 0)%nat
      && guarded (mkRWMutex false (pred (readers mu))) rest
  | EvFlagRead _ :: rest =>
      negb (readers mu =? 0)%nat && guarded mu rest
  | EvFlagWrite _ :: rest => writer mu && guarded mu rest
  | _ :: rest => guarded mu rest
  end.



Definition isRecord (e : Event) : bool :=
  match e with EvRecord _ _ => true | _ => false end.


(** *** Sequences of calls *)

(** The calls of [cs] one after the other, from the world [w]. *)
Fixpoint runAll (cs : list Call) (w : World) : World * list Event :=
  match cs with
  | [] => (w, [])
  | c :: rest =>
      let '(w1, e1) := run c w in
      let '(w2, e2) := runAll rest w1 in
      (w2, e1 ++ e2)
  end.

(** The value of the flag after a trace that started with the flag at
    [current]: the last value written. *)
Fixpoint lastFlagWrite (current : bool) (evs : list Event) : bool :=
  match evs with
  | [] => current
  | EvFlagWrite b :: rest => lastFlagWrite b rest
  | _ :: rest => lastFlagWrite current rest
  end.

(** Every read in the trace sees the value written last before it, or
    [current] when nothing was written before it. *)
Fixpoint readsAreCurrent (current : bool) (evs : list Event) : bool :=
  match evs with
  | [] => true
  | EvFlagWrite b :: rest => readsAreCurrent b rest
  | EvFlagRead b :: rest => Bool.eqb b current && readsAreCurrent current rest
  | _ :: rest => readsAreCurrent current rest
  end.

End Package.

End spanner.

(** ** Package compute: the Disks REST client *)

Module url.

(** [url.URL], the fields written here and those [url.Parse] fills in. *)
Record URL := mkURL {
  Scheme : string;
  Host : string;
  Path : string;
  RawQuery : string;
  Fragment : string;
}.

Definition isAlnum (c : ascii) : bool :=
  let n := nat_of_ascii c in
  ((97 <=? n) && (n <=? 122) || (65 <=? n) && (n <=? 90)
   || (48 <=? n) && (n <=? 57))%nat.

(** [shouldEscape(c, encodeQueryComponent)]: all but the unreserved
    characters. *)
Definition shouldEscape (c : ascii) : bool :=
  if isAlnum c then false
  else if Ascii.eqb c "-" || Ascii.eqb c "_" || Ascii.eqb c "."
          || Ascii.eqb c "~"
  then false
  else true.

Definition upperhex (n : nat) : ascii :=
  nth n (list_ascii_of_string "0123456789ABCDEF") "0"%char.

(** [url.QueryEscape]: a space becomes [+], an escaped byte [%XX]. *)
Fixpoint QueryEscape (s : string) : string :=
  match s with
  | EmptyString => EmptyString
  | String c s' =>
      if shouldEscape c then
        if Ascii.eqb c " " then String "+" (QueryEscape s')
        else
          let n := nat_of_ascii c in
          String "%"
            (String (upperhex (n / 16)) (String (upperhex (n mod 16))
               (QueryEscape s')))
      else String c (QueryEscape s')
  end.

(** [url.Values] is [map[string][]string]. *)
Abbreviation Values := (gmap string (list string)).

(** [v.Add(key, value)]: appends to the values of [key]. *)
Definition Add (key value : string) (v : Values) : Values :=
  <[key := default [] (v !! key) ++ [value]]> v.

(** The order of [sort.Strings]: ascending, bytes compared as numbers. *)
Definition string_le (a b : string) : Prop := String.leb a b = true.

#[global] Instance string_le_dec : RelDecision string_le :=
  λ a b, decide (String.leb a b = true).

Definition sortStrings (l : list string) : list string :=
  merge_sort string_le l.

(** [v.Encode()]: [key=value] pairs, both escaped, joined by [&], sorted
    by key. *)
Definition Encode (v : Values) : string :=
  String.concat "&"
    (flat_map
       (λ k, map (λ x, QueryEscape k +:+ "=" +:+ QueryEscape x)
                 (default [] (v !! k)))
       (sortStrings (elements (dom v)))).

(** The bytes an escaped string is made of: unreserved characters, and the
    [%] and [+] of the escapes.  None of them separates parameters. *)
Definition isEscaped (c : ascii) : bool :=
  isAlnum c || Ascii.eqb c "-" || Ascii.eqb c "_" || Ascii.eqb c "."
  || Ascii.eqb c "~" || Ascii.eqb c "%" || Ascii.eqb c "+".

Definition allEscaped (s : string) : bool :=
  forallb isEscaped (list_ascii_of_string s).

End url.

Module fmt.

(** [fmt.Sprintf("%v", x)] at the types of the request fields. *)
Definition v_string (s : string) : string := s.
Definition v_bool (b : bool) : string := if b then "true" else "false".
Definition v_uint32 (n : N) : string := pretty n.
Definition v_int32 (n : Z) : string := pretty n.

End fmt.

Module http.

Definition StatusOK : Z := 200.

(** [*http.Request]. *)
Record Request := mkRequest {
  Method : string;
  URL : string;
  Body : list Byte.byte;
  Header : gmap string (list string);
}.

End http.

Module gax.

(** The pairs [key/value] of a list [key; value; key; value; ...]. *)
Fixpoint headerPairs (keyval : list string) : option (list string) :=
  match keyval with
  | [] => Some []
  | k :: v :: rest => (λ l, (k +:+ "/" +:+ v) :: l) <$> headerPairs rest
  | [_] => None
  end.

(** [gax.XGoogHeader(keyval...)]: the pairs [key/value] separated by
    spaces, the empty string for no pair; it panics on an odd number of
    strings ([None]). *)
Definition XGoogHeader (keyval : list string) : option string :=
  String.concat " " <$> headerPairs keyval.

End gax.

Module compute.

(** A Go [error] value of package compute: what a callee returned, or
    [fmt.Errorf(format)]. *)
Inductive error :=
| CalleeError (msg : string)
| Errorf (format : string).

(** The messages of [computepb] nested in requests and answers, as far as
    the client handles them: opaque payloads. *)
Class Protobuf := {
  (** A resource message carried in the body of a request. *)
  ResourceMessage : Type;
  (** The fields [protojson] decodes into an answer message. *)
  Content : Type;
  (** [httpRsp.Body]. *)
  ReadCloser : Type;
}.

(** [*http.Response]. *)
Record Response `{Protobuf} := mkResponse {
  Status : string;
  StatusCode : Z;
  RspBody : ReadCloser;
}.

(** The message types the 13 operations return. *)
Inductive RspKind :=
| Operation
| DiskAggregatedList
| Disk
| Policy
| DiskList
| TestPermissionsResponse.

(** *** The requests.  An optional field ([*T]) is an [option]. *)

Module AddResourcePoliciesDiskRequest.
Record t `{Protobuf} := mk {
  Disk : string;
  DisksAddResourcePoliciesRequestResource : option ResourceMessage;
  Project : string;
  RequestId : option string;
  Zone : string;
}.
End AddResourcePoliciesDiskRequest.

Module AggregatedListDisksRequest.
Record t := mk {
  Filter : option string;
  IncludeAllScopes : option bool;
  MaxResults : option N;
  OrderBy : option string;
  PageToken : option string;
  Project : string;
  ReturnPartialSuccess : option bool;
}.
End AggregatedListDisksRequest.

Module CreateSnapshotDiskRequest.
Record t `{Protobuf} := mk {
  Disk : string;
  GuestFlush : option bool;
  Project : string;
  RequestId : option string;
  SnapshotResource : option ResourceMessage;
  Zone : string;
}.
End CreateSnapshotDiskRequest.

Module DeleteDiskRequest.
Record t := mk {
  Disk : string;
  Project : string;
  RequestId : option string;
  Zone : string;
}.
End DeleteDiskRequest.

Module GetDiskRequest.
Record t := mk {
  Disk : string;
  Project : string;
  Zone : string;
}.
End GetDiskRequest.

Module GetIamPolicyDiskRequest.
Record t := mk {
  OptionsRequestedPolicyVersion : option Z;
  Project : string;
  Resource : string;
  Zone : string;
}.
End GetIamPolicyDiskRequest.

Module InsertDiskRequest.
Record t `{Protobuf} := mk {
  DiskResource : option ResourceMessage;
  Project : string;
  RequestId : option string;
  SourceImage : option string;
  Zone : string;
}.
End InsertDiskRequest.

Module ListDisksRequest.
Record t := mk {
  Filter : option string;
  MaxResults : option N;
  OrderBy : option string;
  PageToken : option string;
  Project : string;
  ReturnPartialSuccess : option bool;
  Zone : string;
}.
End ListDisksRequest.

Module RemoveResourcePoliciesDiskRequest.
Record t `{Protobuf} := mk {
  Disk : string;
  DisksRemoveResourcePoliciesRequestResource : option ResourceMessage;
  Project : string;
  RequestId : option string;
  Zone : string;
}.
End RemoveResourcePoliciesDiskRequest.

Module ResizeDiskRequest.
Record t `{Protobuf} := mk {
  Disk : string;
  DisksResizeRequestResource : option ResourceMessage;
  Project : string;
  RequestId : option string;
  Zone : string;
}.
End ResizeDiskRequest.

Module SetIamPolicyDiskRequest.
Record t `{Protobuf} := mk {
  Project : string;
  Resource : string;
  Zone : string;
  ZoneSetPolicyRequestResource : option ResourceMessage;
}.
End SetIamPolicyDiskRequest.

Module SetLabelsDiskRequest.
Record t `{Protobuf} := mk {
  Project : string;
  RequestId : option string;
  Resource : string;
  Zone : string;
  ZoneSetLabelsRequestResource : option ResourceMessage;
}.
End SetLabelsDiskRequest.

Module TestIamPermissionsDiskRequest.
Record t `{Protobuf} := mk {
  Project : string;
  Resource : string;
  TestPermissionsRequestResource : option ResourceMessage;
  Zone : string;
}.
End TestIamPermissionsDiskRequest.

Section Client.
Context `{Protobuf}.

(** A [proto.Message] handed to [protojson]: the resource of a request,
    or a request itself. *)
Inductive protoMessage :=
| MsgResource (r : option ResourceMessage)
| MsgAggregatedListDisksRequest (r : option AggregatedListDisksRequest.t)
| MsgDeleteDiskRequest (r : option DeleteDiskRequest.t)
| MsgGetDiskRequest (r : option GetDiskRequest.t)
| MsgGetIamPolicyDiskRequest (r : option GetIamPolicyDiskRequest.t)
| MsgListDisksRequest (r : option ListDisksRequest.t).

(** The libraries under the client.  A call returns its value ([inl]) or
    an error ([inr]). *)
Class Transport := {
  protojson_Marshal : protoMessage → list Byte.byte + error;
  url_Parse : string → url.URL + error;
  url_String : url.URL → string;
  http_NewRequest : string → string → list Byte.byte → http.Request + error;
  ioutil_ReadAll : ReadCloser → list Byte.byte + error;
  (** [unm.Unmarshal(buf, rsp)] on an empty [rsp]: what it decoded, and
      the error. *)
  protojson_Unmarshal : RspKind → list Byte.byte → Content * option error;
}.

Context `{Transport}.

(** [disksRESTClient]; [httpClient] is [None] once [Close] has made it
    nil, and otherwise answers a request with a response or an error. *)
Record disksRESTClient := mkClient {
  endpoint : string;
  httpClient : option (http.Request → Response + error);
  xGoogMetadata : metadata.MD;
}.

Definition Close (c : disksRESTClient) : disksRESTClient * option error :=
  (mkClient (endpoint c) None (xGoogMetadata c), None).

(** What an operation does to the outside, oldest first. *)
Inductive Event :=
| EvNewRequest (method : string) (u : url.URL) (body : list Byte.byte)
| EvDo (req : http.Request) (answer : Response + error)
| EvReadAll (body : ReadCloser)
| EvUnmarshal (kind : RspKind) (buf : list Byte.byte)
| EvClose (body : ReadCloser).

(** An operation returns a message (nil: [None]) and an error, or
    panics on a nil pointer. *)
Inductive Outcome :=
| Returned (rsp : option (RspKind * Content)) (err : option error)
           (trace : list Event)
| Panicked (trace : list Event).

Definition trace_of (o : Outcome) : list Event :=
  match o with
  | Returned _ _ trace => trace
  | Panicked trace => trace
  end.

(** Nil-safe getters: [req.GetX()] is the zero value on a nil request,
    and [req != nil && req.X != nil] reads an optional field. *)
Definition get {A B} (f : A → B) (zero : B) (req : option A) : B :=
  from_option f zero req.

Definition opt {A B} (f : A → option B) (req : option A) : option B :=
  req ≫= f.

(** [if req != nil && req.X != nil { params.Add(key, Sprintf("%v", x)) }] *)
Definition addParam (key : string) (value : option string)
    (params : url.Values) : url.Values :=
  match value with
  | Some v => url.Add key v params
  | None => params
  end.

Definition addPath (u : url.URL) (p : string) : url.URL :=
  url.mkURL (url.Scheme u) (url.Host u) (url.Path u +:+ p)
    (url.RawQuery u) (url.Fragment u).

Definition setRawQuery (u : url.URL) (q : string) : url.URL :=
  url.mkURL (url.Scheme u) (url.Host u) (url.Path u) q (url.Fragment u).

(** The text every operation ends with, from [http.NewRequest] to
    [return rsp, unm.Unmarshal(buf, rsp)]. *)
Definition send (c : disksRESTClient) (method : string) (baseUrl : url.URL)
    (jsonReq : list Byte.byte) (kind : RspKind) : Outcome :=
  match http_NewRequest method (url_String baseUrl) jsonReq with
  | inr err => Returned None (Some err) [EvNewRequest method baseUrl jsonReq]
  | inl httpReq =>
      let httpReq :=
        http.mkRequest (http.Method httpReq) (http.URL httpReq)
          (http.Body httpReq)
          (<["Content-Type" := ["application/json"]]>
             (xGoogMetadata c ∪ http.Header httpReq)) in
      match httpClient c with
      | None => Panicked [EvNewRequest method baseUrl jsonReq]
      | Some Do =>
          match Do httpReq with
          | inr err =>
              Returned None (Some err)
                [EvNewRequest method baseUrl jsonReq; EvDo httpReq (inr err)]
          | inl httpRsp =>
              if negb (StatusCode httpRsp =? http.StatusOK) then
                Returned None (Some (Errorf (Status httpRsp)))
                  [EvNewRequest method baseUrl jsonReq;
                   EvDo httpReq (inl httpRsp);
                   EvClose (RspBody httpRsp)]
              else
                match ioutil_ReadAll (RspBody httpRsp) with
                | inr err =>
                    Returned None (Some err)
                      [EvNewRequest method baseUrl jsonReq;
                       EvDo httpReq (inl httpRsp);
                       EvReadAll (RspBody httpRsp);
                       EvClose (RspBody httpRsp)]
                | inl buf =>
                    let '(rsp, err) := protojson_Unmarshal kind buf in
                    Returned (Some (kind, rsp)) err
                      [EvNewRequest method baseUrl jsonReq;
                       EvDo httpReq (inl httpRsp);
                       EvReadAll (RspBody httpRsp); EvUnmarshal kind buf;
                       EvClose (RspBody httpRsp)]
                end
          end
      end
  end.

(** The text every operation starts with: marshal the body, parse the
    endpoint ([baseUrl, _ := url.Parse(c.endpoint)]: a failure leaves a
    nil [baseUrl], and the next line dereferences it). *)
Definition start (c : disksRESTClient) (body : protoMessage)
    (k : list Byte.byte → url.URL → Outcome) : Outcome :=
  match protojson_Marshal body with
  | inr err => Returned None (Some err) []
  | inl jsonReq =>
      match url_Parse (endpoint c) with
      | inr _ => Panicked []
      | inl baseUrl => k jsonReq baseUrl
      end
  end.

(** *** The 13 operations *)

Definition AddResourcePolicies (c : disksRESTClient)
    (req : option AddResourcePoliciesDiskRequest.t) : Outcome :=
  let body :=
    opt AddResourcePoliciesDiskRequest.DisksAddResourcePoliciesRequestResource req in
  start c (MsgResource body) (λ jsonReq baseUrl,
    let baseUrl := addPath baseUrl
      ("/compute/v1/projects/"
       +:+ fmt.v_string (get AddResourcePoliciesDiskRequest.Project "" req)
       +:+ "/zones/"
       +:+ fmt.v_string (get AddResourcePoliciesDiskRequest.Zone "" req)
       +:+ "/disks/"
       +:+ fmt.v_string (get AddResourcePoliciesDiskRequest.Disk "" req)
       +:+ "/addResourcePolicies") in
    let params : url.Values := ∅ in
    let params := addParam "requestId"
      (fmt.v_string <$> opt AddResourcePoliciesDiskRequest.RequestId req)
      params in
    let baseUrl := setRawQuery baseUrl (url.Encode params) in
    send c "POST" baseUrl jsonReq Operation).

Definition AggregatedList (c : disksRESTClient)
    (req : option AggregatedListDisksRequest.t) : Outcome :=
  start c (MsgAggregatedListDisksRequest req) (λ jsonReq baseUrl,
    let baseUrl := addPath baseUrl
      ("/compute/v1/projects/"
       +:+ fmt.v_string (get AggregatedListDisksRequest.Project "" req)
       +:+ "/aggregated/disks") in
    let params : url.Values := ∅ in
    let params := addParam "filter"
      (fmt.v_string <$> opt AggregatedListDisksRequest.Filter req) params in
    let params := addParam "includeAllScopes"
      (fmt.v_bool <$> opt AggregatedListDisksRequest.IncludeAllScopes req)
      params in
    let params := addParam "maxResults"
      (fmt.v_uint32 <$> opt AggregatedListDisksRequest.MaxResults req)
      params in
    let params := addParam "orderBy"
      (fmt.v_string <$> opt AggregatedListDisksRequest.OrderBy req) params in
    let params := addParam "pageToken"
      (fmt.v_string <$> opt AggregatedListDisksRequest.PageToken req)
      params in
    let params := addParam "returnPartialSuccess"
      (fmt.v_bool <$> opt AggregatedListDisksRequest.ReturnPartialSuccess req)
      params in
    let baseUrl := setRawQuery baseUrl (url.Encode params) in
    send c "GET" baseUrl jsonReq DiskAggregatedList).

Definition CreateSnapshot (c : disksRESTClient)
    (req : option CreateSnapshotDiskRequest.t) : Outcome :=
  let body := opt CreateSnapshotDiskRequest.SnapshotResource req in
  start c (MsgResource body) (λ jsonReq baseUrl,
    let baseUrl := addPath baseUrl
      ("/compute/v1/projects/"
       +:+ fmt.v_string (get CreateSnapshotDiskRequest.Project "" req)
       +:+ "/zones/"
       +:+ fmt.v_string (get CreateSnapshotDiskRequest.Zone "" req)
       +:+ "/disks/"
       +:+ fmt.v_string (get CreateSnapshotDiskRequest.Disk "" req)
       +:+ "/createSnapshot") in
    let params : url.Values := ∅ in
    let params := addParam "guestFlush"
      (fmt.v_bool <$> opt CreateSnapshotDiskRequest.GuestFlush req) params in
    let params := addParam "requestId"
      (fmt.v_string <$> opt CreateSnapshotDiskRequest.RequestId req)
      params in
    let baseUrl := setRawQuery baseUrl (url.Encode params) in
    send c "POST" baseUrl jsonReq Operation).

Definition Delete (c : disksRESTClient) (req : option DeleteDiskRequest.t)
  : Outcome :=
  start c (MsgDeleteDiskRequest req) (λ jsonReq baseUrl,
    let baseUrl := addPath baseUrl
      ("/compute/v1/projects/"
       +:+ fmt.v_string (get DeleteDiskRequest.Project "" req)
       +:+ "/zones/"
       +:+ fmt.v_string (get DeleteDiskRequest.Zone "" req)
       +:+ "/disks/"
       +:+ fmt.v_string (get DeleteDiskRequest.Disk "" req)) in
    let params : url.Values := ∅ in
    let params := addParam "requestId"
      (fmt.v_string <$> opt DeleteDiskRequest.RequestId req) params in
    let baseUrl := setRawQuery baseUrl (url.Encode params) in
    send c "DELETE" baseUrl jsonReq Operation).

Definition Get (c : disksRESTClient) (req : option GetDiskRequest.t)
  : Outcome :=
  start c (MsgGetDiskRequest req) (λ jsonReq baseUrl,
    let baseUrl := addPath baseUrl
      ("/compute/v1/projects/"
       +:+ fmt.v_string (get GetDiskRequest.Project "" req)
       +:+ "/zones/"
       +:+ fmt.v_string (get GetDiskRequest.Zone "" req)
       +:+ "/disks/"
       +:+ fmt.v_string (get GetDiskRequest.Disk "" req)) in
    send c "GET" baseUrl jsonReq Disk).

Definition GetIamPolicy (c : disksRESTClient)
    (req : option GetIamPolicyDiskRequest.t) : Outcome :=
  start c (MsgGetIamPolicyDiskRequest req) (λ jsonReq baseUrl,
    let baseUrl := addPath baseUrl
      ("/compute/v1/projects/"
       +:+ fmt.v_string (get GetIamPolicyDiskRequest.Project "" req)
       +:+ "/zones/"
       +:+ fmt.v_string (get GetIamPolicyDiskRequest.Zone "" req)
       +:+ "/disks/"
       +:+ fmt.v_string (get GetIamPolicyDiskRequest.Resource "" req)
       +:+ "/getIamPolicy") in
    let params : url.Values := ∅ in
    let params := addParam "optionsRequestedPolicyVersion"
      (fmt.v_int32
         <$> opt GetIamPolicyDiskRequest.OptionsRequestedPolicyVersion req)
      params in
    let baseUrl := setRawQuery baseUrl (url.Encode params) in
    send c "GET" baseUrl jsonReq Policy).

Definition Insert (c : disksRESTClient) (req : option InsertDiskRequest.t)
  : Outcome :=
  let body := opt InsertDiskRequest.DiskResource req in
  start c (MsgResource body) (λ jsonReq baseUrl,
    let baseUrl := addPath baseUrl
      ("/compute/v1/projects/"
       +:+ fmt.v_string (get InsertDiskRequest.Project "" req)
       +:+ "/zones/"
       +:+ fmt.v_string (get InsertDiskRequest.Zone "" req)
       +:+ "/disks") in
    let params : url.Values := ∅ in
    let params := addParam "requestId"
      (fmt.v_string <$> opt InsertDiskRequest.RequestId req) params in
    let params := addParam "sourceImage"
      (fmt.v_string <$> opt InsertDiskRequest.SourceImage req) params in
    let baseUrl := setRawQuery baseUrl (url.Encode params) in
    send c "POST" baseUrl jsonReq Operation).

Definition List (c : disksRESTClient) (req : option ListDisksRequest.t)
  : Outcome :=
  start c (MsgListDisksRequest req) (λ jsonReq baseUrl,
    let baseUrl := addPath baseUrl
      ("/compute/v1/projects/"
       +:+ fmt.v_string (get ListDisksRequest.Project "" req)
       +:+ "/zones/"
       +:+ fmt.v_string (get ListDisksRequest.Zone "" req)
       +:+ "/disks") in
    let params : url.Values := ∅ in
    let params := addParam "filter"
      (fmt.v_string <$> opt ListDisksRequest.Filter req) params in
    let params := addParam "maxResults"
      (fmt.v_uint32 <$> opt ListDisksRequest.MaxResults req) params in
    let params := addParam "orderBy"
      (fmt.v_string <$> opt ListDisksRequest.OrderBy req) params in
    let params := addParam "pageToken"
      (fmt.v_string <$> opt ListDisksRequest.PageToken req) params in
    let params := addParam "returnPartialSuccess"
      (fmt.v_bool <$> opt ListDisksRequest.ReturnPartialSuccess req)
      params in
    let baseUrl := setRawQuery baseUrl (url.Encode params) in
    send c "GET" baseUrl jsonReq DiskList).

Definition RemoveResourcePolicies (c : disksRESTClient)
    (req : option RemoveResourcePoliciesDiskRequest.t) : Outcome :=
  let body :=
    opt RemoveResourcePoliciesDiskRequest.DisksRemoveResourcePoliciesRequestResource
      req in
  start c (MsgResource body) (λ jsonReq baseUrl,
    let baseUrl := addPath baseUrl
      ("/compute/v1/projects/"
       +:+ fmt.v_string (get RemoveResourcePoliciesDiskRequest.Project "" req)
       +:+ "/zones/"
       +:+ fmt.v_string (get RemoveResourcePoliciesDiskRequest.Zone "" req)
       +:+ "/disks/"
       +:+ fmt.v_string (get RemoveResourcePoliciesDiskRequest.Disk "" req)
       +:+ "/removeResourcePolicies") in
    let params : url.Values := ∅ in
    let params := addParam "requestId"
      (fmt.v_string <$> opt RemoveResourcePoliciesDiskRequest.RequestId req)
      params in
    let baseUrl := setRawQuery baseUrl (url.Encode params) in
    send c "POST" baseUrl jsonReq Operation).

Definition Resize (c : disksRESTClient) (req : option ResizeDiskRequest.t)
  : Outcome :=
  let body := opt ResizeDiskRequest.DisksResizeRequestResource req in
  start c (MsgResource body) (λ jsonReq baseUrl,
    let baseUrl := addPath baseUrl
      ("/compute/v1/projects/"
       +:+ fmt.v_string (get ResizeDiskRequest.Project "" req)
       +:+ "/zones/"
       +:+ fmt.v_string (get ResizeDiskRequest.Zone "" req)
       +:+ "/disks/"
       +:+ fmt.v_string (get ResizeDiskRequest.Disk "" req)
       +:+ "/resize") in
    let params : url.Values := ∅ in
    let params := addParam "requestId"
      (fmt.v_string <$> opt ResizeDiskRequest.RequestId req) params in
    let baseUrl := setRawQuery baseUrl (url.Encode params) in
    send c "POST" baseUrl jsonReq Operation).

Definition SetIamPolicy (c : disksRESTClient)
    (req : option SetIamPolicyDiskRequest.t) : Outcome :=
  let body := opt SetIamPolicyDiskRequest.ZoneSetPolicyRequestResource req in
  start c (MsgResource body) (λ jsonReq baseUrl,
    let baseUrl := addPath baseUrl
      ("/compute/v1/projects/"
       +:+ fmt.v_string (get SetIamPolicyDiskRequest.Project "" req)
       +:+ "/zones/"
       +:+ fmt.v_string (get SetIamPolicyDiskRequest.Zone "" req)
       +:+ "/disks/"
       +:+ fmt.v_string (get SetIamPolicyDiskRequest.Resource "" req)
       +:+ "/setIamPolicy") in
    send c "POST" baseUrl jsonReq Policy).

Definition SetLabels (c : disksRESTClient)
    (req : option SetLabelsDiskRequest.t) : Outcome :=
  let body := opt SetLabelsDiskRequest.ZoneSetLabelsRequestResource req in
  start c (MsgResource body) (λ jsonReq baseUrl,
    let baseUrl := addPath baseUrl
      ("/compute/v1/projects/"
       +:+ fmt.v_string (get SetLabelsDiskRequest.Project "" req)
       +:+ "/zones/"
       +:+ fmt.v_string (get SetLabelsDiskRequest.Zone "" req)
       +:+ "/disks/"
       +:+ fmt.v_string (get SetLabelsDiskRequest.Resource "" req)
       +:+ "/setLabels") in
    let params : url.Values := ∅ in
    let params := addParam "requestId"
      (fmt.v_string <$> opt SetLabelsDiskRequest.RequestId req) params in
    let baseUrl := setRawQuery baseUrl (url.Encode params) in
    send c "POST" baseUrl jsonReq Operation).

Definition TestIamPermissions (c : disksRESTClient)
    (req : option TestIamPermissionsDiskRequest.t) : Outcome :=
  let body :=
    opt TestIamPermissionsDiskRequest.TestPermissionsRequestResource req in
  start c (MsgResource body) (λ jsonReq baseUrl,
    let baseUrl := addPath baseUrl
      ("/compute/v1/projects/"
       +:+ fmt.v_string (get TestIamPermissionsDiskRequest.Project "" req)
       +:+ "/zones/"
       +:+ fmt.v_string (get TestIamPermissionsDiskRequest.Zone "" req)
       +:+ "/disks/"
       +:+ fmt.v_string (get TestIamPermissionsDiskRequest.Resource "" req)
       +:+ "/testIamPermissions") in
    send c "POST" baseUrl jsonReq TestPermissionsResponse).

(** A call of one of the 13 operations, with its request. *)
Inductive Op :=
| OpAddResourcePolicies (req : option AddResourcePoliciesDiskRequest.t)
| OpAggregatedList (req : option AggregatedListDisksRequest.t)
| OpCreateSnapshot (req : option CreateSnapshotDiskRequest.t)
| OpDelete (req : option DeleteDiskRequest.t)
| OpGet (req : option GetDiskRequest.t)
| OpGetIamPolicy (req : option GetIamPolicyDiskRequest.t)
| OpInsert (req : option InsertDiskRequest.t)
| OpList (req : option ListDisksRequest.t)
| OpRemoveResourcePolicies (req : option RemoveResourcePoliciesDiskRequest.t)
| OpResize (req : option ResizeDiskRequest.t)
| OpSetIamPolicy (req : option SetIamPolicyDiskRequest.t)
| OpSetLabels (req : option SetLabelsDiskRequest.t)
| OpTestIamPermissions (req : option TestIamPermissionsDiskRequest.t).

Definition call (c : disksRESTClient) (op : Op) : Outcome :=
  match op with
  | OpAddResourcePolicies req => AddResourcePolicies c req
  | OpAggregatedList req => AggregatedList c req
  | OpCreateSnapshot req => CreateSnapshot c req
  | OpDelete req => Delete c req
  | OpGet req => Get c req
  | OpGetIamPolicy req => GetIamPolicy c req
  | OpInsert req => Insert c req
  | OpList req => List c req
  | OpRemoveResourcePolicies req => RemoveResourcePolicies c req
  | OpResize req => Resize c req
  | OpSetIamPolicy req => SetIamPolicy c req
  | OpSetLabels req => SetLabels c req
  | OpTestIamPermissions req => TestIamPermissions c req
  end.

Definition isReadAll (e : Event) : bool :=
  match e with EvReadAll _ => true | _ => false end.

Definition isUnmarshal (e : Event) : bool :=
  match e with EvUnmarshal _ _ => true | _ => false end.

(** The query string the claim describes: one [key=value] per optional
    field that is set, in the order of the keys. *)
Definition queryParam (key : string) (value : option string) : list string :=
  match value with
  | Some v => [url.QueryEscape key +:+ "=" +:+ url.QueryEscape v]
  | None => []
  end.

(** *** What each operation sends and expects, read off its text *)

(** The message an operation hands to [protojson.Marshal]. *)
Definition marshalled (op : Op) : protoMessage :=
  match op with
  | OpAddResourcePolicies req =>
      MsgResource
        (opt AddResourcePoliciesDiskRequest.DisksAddResourcePoliciesRequestResource
           req)
  | OpAggregatedList req => MsgAggregatedListDisksRequest req
  | OpCreateSnapshot req =>
      MsgResource (opt CreateSnapshotDiskRequest.SnapshotResource req)
  | OpDelete req => MsgDeleteDiskRequest req
  | OpGet req => MsgGetDiskRequest req
  | OpGetIamPolicy req => MsgGetIamPolicyDiskRequest req
  | OpInsert req => MsgResource (opt InsertDiskRequest.DiskResource req)
  | OpList req => MsgListDisksRequest req
  | OpRemoveResourcePolicies req =>
      MsgResource
        (opt RemoveResourcePoliciesDiskRequest.DisksRemoveResourcePoliciesRequestResource
           req)
  | OpResize req =>
      MsgResource (opt ResizeDiskRequest.DisksResizeRequestResource req)
  | OpSetIamPolicy req =>
      MsgResource (opt SetIamPolicyDiskRequest.ZoneSetPolicyRequestResource req)
  | OpSetLabels req =>
      MsgResource (opt SetLabelsDiskRequest.ZoneSetLabelsRequestResource req)
  | OpTestIamPermissions req =>
      MsgResource
        (opt TestIamPermissionsDiskRequest.TestPermissionsRequestResource req)
  end.

(** The HTTP method of an operation. *)
Definition httpMethod (op : Op) : string :=
  match op with
  | OpAggregatedList _ | OpGet _ | OpGetIamPolicy _ | OpList _ => "GET"
  | OpDelete _ => "DELETE"
  | _ => "POST"
  end.

(** The message type an operation decodes the answer into. *)
Definition answerKind (op : Op) : RspKind :=
  match op with
  | OpAggregatedList _ => DiskAggregatedList
  | OpGet _ => Disk
  | OpGetIamPolicy _ | OpSetIamPolicy _ => Policy
  | OpList _ => DiskList
  | OpTestIamPermissions _ => TestPermissionsResponse
  | _ => Operation
  end.

(** [/compute/v1/projects/{project}/zones/{zone}/disks/{disk}{suffix}], for
    the operations on a disk that have a suffix. *)
Definition diskPath (project zone disk suffix : string) : string :=
  "/compute/v1/projects/" +:+ project +:+ "/zones/" +:+ zone +:+ "/disks/"
  +:+ disk +:+ suffix.

(** The path an operation appends to the path of the endpoint. *)
Definition requestPath (op : Op) : string :=
  match op with
  | OpAddResourcePolicies req =>
      diskPath (get AddResourcePoliciesDiskRequest.Project "" req)
        (get AddResourcePoliciesDiskRequest.Zone "" req)
        (get AddResourcePoliciesDiskRequest.Disk "" req) "/addResourcePolicies"
  | OpAggregatedList req =>
      "/compute/v1/projects/"
      +:+ get AggregatedListDisksRequest.Project "" req +:+ "/aggregated/disks"
  | OpCreateSnapshot req =>
      diskPath (get CreateSnapshotDiskRequest.Project "" req)
        (get CreateSnapshotDiskRequest.Zone "" req)
        (get CreateSnapshotDiskRequest.Disk "" req) "/createSnapshot"
  | OpDelete req =>
      "/compute/v1/projects/" +:+ get DeleteDiskRequest.Project "" req
      +:+ "/zones/" +:+ get DeleteDiskRequest.Zone "" req +:+ "/disks/"
      +:+ get DeleteDiskRequest.Disk "" req
  | OpGet req =>
      "/compute/v1/projects/" +:+ get GetDiskRequest.Project "" req
      +:+ "/zones/" +:+ get GetDiskRequest.Zone "" req +:+ "/disks/"
      +:+ get GetDiskRequest.Disk "" req
  | OpGetIamPolicy req =>
      diskPath (get GetIamPolicyDiskRequest.Project "" req)
        (get GetIamPolicyDiskRequest.Zone "" req)
        (get GetIamPolicyDiskRequest.Resource "" req) "/getIamPolicy"
  | OpInsert req =>
      "/compute/v1/projects/" +:+ get InsertDiskRequest.Project "" req
      +:+ "/zones/" +:+ get InsertDiskRequest.Zone "" req +:+ "/disks"
  | OpList req =>
      "/compute/v1/projects/" +:+ get ListDisksRequest.Project "" req
      +:+ "/zones/" +:+ get ListDisksRequest.Zone "" req +:+ "/disks"
  | OpRemoveResourcePolicies req =>
      diskPath (get RemoveResourcePoliciesDiskRequest.Project "" req)
        (get RemoveResourcePoliciesDiskRequest.Zone "" req)
        (get RemoveResourcePoliciesDiskRequest.Disk "" req)
        "/removeResourcePolicies"
  | OpResize req =>
      diskPath (get ResizeDiskRequest.Project "" req)
        (get ResizeDiskRequest.Zone "" req) (get ResizeDiskRequest.Disk "" req)
        "/resize"
  | OpSetIamPolicy req =>
      diskPath (get SetIamPolicyDiskRequest.Project "" req)
        (get SetIamPolicyDiskRequest.Zone "" req)
        (get SetIamPolicyDiskRequest.Resource "" req) "/setIamPolicy"
  | OpSetLabels req =>
      diskPath (get SetLabelsDiskRequest.Project "" req)
        (get SetLabelsDiskRequest.Zone "" req)
        (get SetLabelsDiskRequest.Resource "" req) "/setLabels"
  | OpTestIamPermissions req =>
      diskPath (get TestIamPermissionsDiskRequest.Project "" req)
        (get TestIamPermissionsDiskRequest.Zone "" req)
        (get TestIamPermissionsDiskRequest.Resource "" req)
        "/testIamPermissions"
  end.

(** The [key=value] pairs of the query string of an operation, in the order
    of the keys; [None] for the operations that leave the query string of
    the endpoint alone. *)
Definition requestQuery (op : Op) : option (list string) :=
  match op with
  | OpAddResourcePolicies req =>
      Some (queryParam "requestId"
              (opt AddResourcePoliciesDiskRequest.RequestId req))
  | OpAggregatedList req =>
      Some
        (queryParam "filter" (opt AggregatedListDisksRequest.Filter req)
         ++ queryParam "includeAllScopes"
              (fmt.v_bool <$> opt AggregatedListDisksRequest.IncludeAllScopes req)
         ++ queryParam "maxResults"
              (fmt.v_uint32 <$> opt AggregatedListDisksRequest.MaxResults req)
         ++ queryParam "orderBy" (opt AggregatedListDisksRequest.OrderBy req)
         ++ queryParam "pageToken" (opt AggregatedListDisksRequest.PageToken req)
         ++ queryParam "returnPartialSuccess"
              (fmt.v_bool
                 <$> opt AggregatedListDisksRequest.ReturnPartialSuccess req))
  | OpCreateSnapshot req =>
      Some
        (queryParam "guestFlush"
           (fmt.v_bool <$> opt CreateSnapshotDiskRequest.GuestFlush req)
         ++ queryParam "requestId" (opt CreateSnapshotDiskRequest.RequestId req))
  | OpDelete req => Some (queryParam "requestId" (opt DeleteDiskRequest.RequestId req))
  | OpGet _ => None
  | OpGetIamPolicy req =>
      Some
        (queryParam "optionsRequestedPolicyVersion"
           (fmt.v_int32
              <$> opt GetIamPolicyDiskRequest.OptionsRequestedPolicyVersion req))
  | OpInsert req =>
      Some
        (queryParam "requestId" (opt InsertDiskRequest.RequestId req)
         ++ queryParam "sourceImage" (opt InsertDiskRequest.SourceImage req))
  | OpList req =>
      Some
        (queryParam "filter" (opt ListDisksRequest.Filter req)
         ++ queryParam "maxResults"
              (fmt.v_uint32 <$> opt ListDisksRequest.MaxResults req)
         ++ queryParam "orderBy" (opt ListDisksRequest.OrderBy req)
         ++ queryParam "pageToken" (opt ListDisksRequest.PageToken req)
         ++ queryParam "returnPartialSuccess"
              (fmt.v_bool <$> opt ListDisksRequest.ReturnPartialSuccess req))
  | OpRemoveResourcePolicies req =>
      Some (queryParam "requestId"
              (opt RemoveResourcePoliciesDiskRequest.RequestId req))
  | OpResize req => Some (queryParam "requestId" (opt ResizeDiskRequest.RequestId req))
  | OpSetIamPolicy _ => None
  | OpSetLabels req =>
      Some (queryParam "requestId" (opt SetLabelsDiskRequest.RequestId req))
  | OpTestIamPermissions _ => None
  end.

(** The URL an operation asks for, given the parsed endpoint. *)
Definition requestURL (base : url.URL) (op : Op) : url.URL :=
  url.mkURL (url.Scheme base) (url.Host base)
    (url.Path base +:+ requestPath op)
    (match requestQuery op with
     | Some pairs => String.concat "&" pairs
     | None => url.RawQuery base
     end)
    (url.Fragment base).

Definition isDo (e : Event) : bool :=
  match e with EvDo _ _ => true | _ => false end.

Definition isClose (e : Event) : bool :=
  match e with EvClose _ => true | _ => false end.

(** *** Construction of a client *)

(** The types of the options a caller passes: [gax.CallOption] and
    [option.ClientOption]. *)
Class Options := {
  CallOption : Type;
  UserClientOption : Type;
}.

Context `{Options}.

(** An [option.ClientOption]: one of the defaults of the package, or one
    the caller gave. *)
Inductive ClientOption :=
| WithDefaultEndpoint (endpoint : string)
| WithDefaultMTLSEndpoint (endpoint : string)
| WithDefaultAudience (audience : string)
| WithDefaultScopes (scopes : list string)
| Given (o : UserClientOption).

(** What the construction of a client takes from outside the sources:
    [versionGo()], [versionClient] and [DefaultAuthScopes()] of package
    compute, [gax.Version], and [httptransport.NewClient], which returns the
    HTTP client and the endpoint, or an error. *)
Class Construction := {
  versionGo : string;
  versionClient : string;
  gax_Version : string;
  DefaultAuthScopes : list string;
  httptransport_NewClient :
    list ClientOption → (http.Request → Response + error) * string + error;
}.

Context `{Construction}.

(** [DisksCallOptions]: the retry settings of each method, in the order of
    the fields: AddResourcePolicies, AggregatedList, CreateSnapshot, Delete,
    Get, GetIamPolicy, Insert, List, RemoveResourcePolicies, Resize,
    SetIamPolicy, SetLabels, TestIamPermissions. *)
Record DisksCallOptions := mkDisksCallOptions {
  optsAddResourcePolicies : list CallOption;
  optsAggregatedList : list CallOption;
  optsCreateSnapshot : list CallOption;
  optsDelete : list CallOption;
  optsGet : list CallOption;
  optsGetIamPolicy : list CallOption;
  optsInsert : list CallOption;
  optsList : list CallOption;
  optsRemoveResourcePolicies : list CallOption;
  optsResize : list CallOption;
  optsSetIamPolicy : list CallOption;
  optsSetLabels : list CallOption;
  optsTestIamPermissions : list CallOption;
}.

(** [DisksClient]: the internal client, here always the REST one, and the
    call options. *)
Record DisksClient := mkDisksClient {
  internalClient : disksRESTClient;
  CallOptions : DisksCallOptions;
}.

(** The wrapper methods of [DisksClient]: each of the 13 hands its request
    to the method of the same name of the internal client. *)
Definition invoke (dc : DisksClient) (op : Op) : Outcome :=
  call (internalClient dc) op.

Definition defaultDisksRESTClientOptions : list ClientOption :=
  [WithDefaultEndpoint "compute.googleapis.com";
   WithDefaultMTLSEndpoint "compute.mtls.googleapis.com";
   WithDefaultAudience "https://compute.googleapis.com/";
   WithDefaultScopes DefaultAuthScopes].

(** [c.setGoogleClientInfo(keyval...)]: the client with its
    [x-goog-api-client] metadata set anew; [None] when [gax.XGoogHeader]
    panics. *)
Definition setGoogleClientInfo (c : disksRESTClient) (keyval : list string)
  : option disksRESTClient :=
  let kv := ["gl-go"; versionGo] ++ keyval in
  let kv := kv ++ ["gapic"; versionClient; "gax"; gax_Version; "rest"; "UNKNOWN"] in
  header ← gax.XGoogHeader kv;
  md ← metadata.Pairs ["x-goog-api-client"; header];
  Some (mkClient (endpoint c) (httpClient c) md).

(** [NewDisksRESTClient(ctx, opts...)]: the client and the error, or a
    panic ([None]). *)
Definition NewDisksRESTClient (opts : list UserClientOption)
  : option (option DisksClient * option error) :=
  let clientOpts := defaultDisksRESTClientOptions ++ (Given <$> opts) in
  match httptransport_NewClient clientOpts with
  | inr err => Some (None, Some err)
  | inl (httpClient, endpoint) =>
      c ← setGoogleClientInfo (mkClient endpoint (Some httpClient) ∅) [];
      Some (Some (mkDisksClient c
                    (mkDisksCallOptions [] [] [] [] [] [] [] [] [] [] [] [] [])),
            None)
  end.

End Client.

End compute.

(** ** Instances for evaluation

    Stand-ins for the collaborators, on which the functions above run on
    concrete inputs. *)

Module testing.

#[global] Instance Q_eq_dec : EqDecision Q.
Proof. solve_decision. Defined.

#[global] Instance Int64Measure_eq_dec : EqDecision stats.Int64Measure.
Proof. solve_decision. Defined.

#[global] Instance Aggregation_eq_dec : EqDecision view.Aggregation.
Proof. solve_decision. Defined.

#[global] Instance View_eq_dec : EqDecision view.View.
Proof. solve_decision. Defined.

(** A view is registered under its name, and under the name of its measure
    when it has none. *)
Definition viewName (v : view.View) : string :=
  if decide (view.Name v = "") then stats.Name (view.Measure v)
  else view.Name v.

(** An in-memory registry: a view whose name is taken by a different view
    is refused, the others are registered. *)
Fixpoint registerAll (views : list view.View) (r : gmap string view.View)
  : gmap string view.View * option error :=
  match views with
  | [] => (r, None)
  | v :: rest =>
      match r !! viewName v with
      | Some v' =>
          if decide (v' = v) then registerAll rest r
          else
            (fst (registerAll rest r),
             Some (RegistrationError
                     "a different view with the same name is already registered"))
      | None =>
          registerAll rest (<[viewName v := v]> r)
      end
  end.

Definition unregisterAll (views : list view.View) (r : gmap string view.View)
  : gmap string view.View :=
  foldr (λ v acc, delete (viewName v) acc) r views.

Definition memoryRegistry : ViewRegistry :=
  {| Registry := gmap string view.View;
     view_Register := registerAll;
     view_Unregister := unregisterAll |}.

(** [s] cut at every [sep]. *)
Fixpoint split (sep : ascii) (s : string) : list string :=
  match s with
  | EmptyString => [EmptyString]
  | String c s' =>
      if Ascii.eqb c sep then EmptyString :: split sep s'
      else
        match split sep s' with
        | [] => [String c EmptyString]
        | w :: ws => String c w :: ws
        end
  end.

Definition nonEmpty (s : string) : bool :=
  match s with EmptyString => false | _ => true end.

(** Database names of the form
    [projects/<project>/instances/<instance>/databases/<database>]. *)
Definition parseName (db : string) : string * string * string * option error :=
  match split "/" db with
  | [p0; project; i0; instance; d0; database] =>
      if String.eqb p0 "projects" && String.eqb i0 "instances"
         && String.eqb d0 "databases" && nonEmpty project
         && nonEmpty instance && nonEmpty database
      then (project, instance, database, None)
      else ("", "", "",
            Some (ParseDatabaseNameError "Failed to parse database name"))
  | _ => ("", "", "",
          Some (ParseDatabaseNameError "Failed to parse database name"))
  end.

Definition repository : Repository :=
  {| parseDatabaseName := parseName; version_Repo := "20201104" |}.

(** Payloads as strings and bytes. *)
Definition protobuf : compute.Protobuf :=
  {| compute.ResourceMessage := string;
     compute.Content := list Byte.byte;
     compute.ReadCloser := list Byte.byte |}.

(** [s] cut before its first [/]: what is before, and the rest. *)
Fixpoint cutAtSlash (s : string) : string * string :=
  match s with
  | EmptyString => (EmptyString, EmptyString)
  | String c s' =>
      if Ascii.eqb c "/" then (EmptyString, s)
      else let '(a, b) := cutAtSlash s' in (String c a, b)
  end.

(** [url.Parse] on the endpoints used here, which have no user, port,
    query, fragment or escape: after [https://] or [http://] the host runs
    up to the first [/] and the path is what follows; a string without a
    scheme is a path, and has no host. *)
Definition parseEndpoint (e : string) : url.URL :=
  if strings.HasPrefix e "https://" then
    let '(host, path) := cutAtSlash (strings.TrimPrefix e "https://") in
    url.mkURL "https" host path "" ""
  else if strings.HasPrefix e "http://" then
    let '(host, path) := cutAtSlash (strings.TrimPrefix e "http://") in
    url.mkURL "http" host path "" ""
  else url.mkURL "" "" e "" "".

(** [u.String()] for such a URL, with a query: [scheme://host], a [/]
    when the path lacks it and there is a host, the path, and [?query]. *)
Definition urlString (u : url.URL) : string :=
  (if decide (url.Scheme u = "") then "" else url.Scheme u +:+ ":")
  +:+ (if decide (url.Scheme u = "" ∧ url.Host u = "") then ""
       else (if decide (url.Host u = "" ∧ url.Path u = "") then "" else "//")
            +:+ url.Host u)
  +:+ (if decide (url.Host u = "") then ""
       else if strings.HasPrefix (url.Path u) "/" then ""
       else if decide (url.Path u = "") then "" else "/")
  +:+ url.Path u
  +:+ (if decide (url.RawQuery u = "") then "" else "?" +:+ url.RawQuery u).

(** A transport that marshals to an empty body, parses and prints a URL as
    above, and decodes an answer to its bytes. *)
Definition transport : @compute.Transport protobuf :=
  @compute.Build_Transport protobuf
    (λ _, inl [])
    (λ e, inl (parseEndpoint e))
    urlString
    (λ m u b, inl (http.mkRequest m u b ∅))
    (λ b : list Byte.byte, inl b)
    (λ _ (buf : list Byte.byte), (buf, None)).

(** A server that answers every request with [status]. *)
Definition server (code : Z) (status : string)
  : http.Request → @compute.Response protobuf + compute.error :=
  λ _, inl (@compute.mkResponse protobuf status code []).

(** A world with nothing registered and the flag off, as at start-up. *)
Definition world0 : @spanner.World memoryRegistry :=
  @spanner.mkWorld memoryRegistry false ∅.

(** A view that takes the name of [GFELatencyView] with another
    aggregation. *)
Definition otherLatencyView : view.View :=
  view.mkView "cloud.google.com/go/spanner/gfe_latency" "" spanner.GFELatency
    view.Count [].

(** A world in which that view is registered. *)
Definition world1 : @spanner.World memoryRegistry :=
  @spanner.mkWorld memoryRegistry false
    {["cloud.google.com/go/spanner/gfe_latency" := otherLatencyView]}.

(** A client of the Disks API whose server answers 404. *)
Definition client404 : @compute.disksRESTClient protobuf :=
  @compute.mkClient protobuf "https://compute.googleapis.com"
    (Some (server 404 "404 Not Found")) ∅.

(** The same client at the default endpoint of the package,
    [WithDefaultEndpoint("compute.googleapis.com")]. *)
Definition clientDefaultEndpoint : @compute.disksRESTClient protobuf :=
  @compute.mkClient protobuf "compute.googleapis.com"
    (Some (server 404 "404 Not Found")) ∅.

(** Requests for the disks of zone [zone-a] in project [proj]. *)
Definition listRequest : compute.ListDisksRequest.t :=
  compute.ListDisksRequest.mk (Some "name = a&b") (Some 5%N) None
    (Some "tok") "proj" (Some true) "zone-a".

Definition getRequest : compute.GetDiskRequest.t :=
  compute.GetDiskRequest.mk "disk-1" "proj" "zone-a".

Definition addPoliciesRequest
  : @compute.AddResourcePoliciesDiskRequest.t protobuf :=
  @compute.AddResourcePoliciesDiskRequest.mk protobuf "disk-1"
    (Some "policies") "proj" (Some "req-1") "zone-a".

(** No options, and a transport layer that always hands out the 404
    server at the endpoint [https://compute.googleapis.com]. *)
Definition noOptions : compute.Options :=
  {| compute.CallOption := Empty_set; compute.UserClientOption := Empty_set |}.

Definition construction
  : @compute.Construction protobuf noOptions :=
  @compute.Build_Construction protobuf noOptions
    "1.17.5" "20211201" "2.1.1" ["https://www.googleapis.com/auth/compute"]
    (λ _, inl (server 404 "404 Not Found", "https://compute.googleapis.com")).

(** Transports on which marshalling, or parsing the endpoint, fails. *)
Definition transportNoMarshal : @compute.Transport protobuf :=
  @compute.Build_Transport protobuf
    (λ _, inr (compute.CalleeError "proto: invalid UTF-8"))
    (@compute.url_Parse protobuf transport)
    (@compute.url_String protobuf transport)
    (@compute.http_NewRequest protobuf transport)
    (@compute.ioutil_ReadAll protobuf transport)
    (@compute.protojson_Unmarshal protobuf transport).

Definition transportNoParse : @compute.Transport protobuf :=
  @compute.Build_Transport protobuf
    (@compute.protojson_Marshal protobuf transport)
    (λ _, inr (compute.CalleeError "parse: invalid URL"))
    (@compute.url_String protobuf transport)
    (@compute.http_NewRequest protobuf transport)
    (@compute.ioutil_ReadAll protobuf transport)
    (@compute.protojson_Unmarshal protobuf transport).


Definition client200 : @compute.disksRESTClient protobuf :=
  @compute.mkClient protobuf "https://compute.googleapis.com"
    (Some (λ _, inl (@compute.mkResponse protobuf "200 OK" 200
                       [Byte.x7b; Byte.x7d; Byte.x0a])))
    {["x-goog-api-client" := ["gl-go/1.17.5 gapic/20211201"]]}.

(** The request that [Get] sends for [getRequest] through [client200]. *)
Definition sentGet : http.Request :=
  http.mkRequest "GET"
    "https://compute.googleapis.com/compute/v1/projects/proj/zones/zone-a/disks/disk-1"
    []
    (<["Content-Type" := ["application/json"]]>
       ({["x-goog-api-client" := ["gl-go/1.17.5 gapic/20211201"]]} ∪ ∅)).

(** A request for the disks of all zones of [proj]. *)
Definition aggregatedRequest : compute.AggregatedListDisksRequest.t :=
  compute.AggregatedListDisksRequest.mk (Some "zone eq us-.*") (Some true)
    None None None "proj" None.



End testing.

(** [Encode] on a map whose keys are known: sort the keys and look each of
    them up by evaluation, leaving the values as they stand. *)
Ltac encode_known_keys :=
  unfold url.Encode;
  match goal with
  | |- context [url.sortStrings ?l] =>
      let l' := eval vm_compute in (url.sortStrings l) in
      replace (url.sortStrings l) with l' by (vm_compute; reflexivity)
  end;
  cbn [flat_map map];
  repeat match goal with
  | |- context [?M !! ?k] =>
      let x := eval vm_compute in (M !! k) in
      replace (M !! k) with x by (vm_compute; reflexivity)
  end;
  cbn [default app compute.queryParam].

(** The URL an operation builds against the one tabulated for it: split by
    fields, go through the cases of the optional parameters, and let
    [Encode] run on the known keys. *)
Ltac request_url :=
  unfold compute.requestURL, compute.requestPath, compute.requestQuery,
    compute.diskPath, compute.setRawQuery, compute.addPath, fmt.v_string;
  cbn [url.Scheme url.Host url.Path url.RawQuery url.Fragment];
  f_equal;
  repeat match goal with
  | |- context [compute.opt ?f ?r] =>
      let o := fresh "o" in generalize (compute.opt f r); intros o; destruct o
  end;
  cbn [fmap option_fmap option_map];
  first [ reflexivity | encode_known_keys; reflexivity ].

(** * Properties *)

(** ** The Go library functions *)

Section GoLibrary.

Lemma HasPrefix_app (p s : string) : strings.HasPrefix (p +:+ s) p = true.
Proof.
  induction p as [|c p IH]; simpl; [done|].
  by rewrite Ascii.eqb_refl, IH.
Qed.

Lemma slice_from_app (p s : string) :
  strings.slice_from (String.length p) (p +:+ s) = s.
Proof. induction p as [|c p IH]; simpl; [by destruct s | done]. Qed.

Lemma TrimPrefix_app (p s : string) : strings.TrimPrefix (p +:+ s) p = s.
Proof.
  unfold strings.TrimPrefix. by rewrite HasPrefix_app, slice_from_app.
Qed.

Lemma digit_range (c : ascii) :
  strconv.isDigit c = true → 0 ≤ strconv.digit c ≤ 9.
Proof.
  unfold strconv.isDigit, strconv.digit. cbv zeta.
  intros [H1 H2]%andb_true_iff.
  apply Nat.leb_le in H1. apply Nat.leb_le in H2. lia.
Qed.

Lemma isDigit_not_sign (c : ascii) :
  strconv.isDigit c = true →
  strconv.isSign c = false ∧ Ascii.eqb c "-" = false.
Proof.
  intros Hd. unfold strconv.isSign.
  destruct (Ascii.eqb_spec c "+") as [->|_]; [discriminate Hd|].
  destruct (Ascii.eqb_spec c "-") as [->|_]; [discriminate Hd|].
  done.
Qed.

(** Appending digits never lowers the number read so far. *)
Lemma fold_digits_ge (l : list ascii) (acc : Z) :
  forallb strconv.isDigit l = true → 0 ≤ acc →
  acc ≤ fold_left (λ a c, a * 10 + strconv.digit c) l acc.
Proof.
  revert acc. induction l as [|c l IH]; simpl; intros acc Hl Hacc; [lia|].
  apply andb_true_iff in Hl as [Hc Hl].
  pose proof (digit_range c Hc).
  etrans; [|apply IH; [done|lia]]. lia.
Qed.

Lemma atoiLoop_digits (s : string) (acc : Z) :
  forallb strconv.isDigit (list_ascii_of_string s) = true →
  strconv.atoiLoop acc s
  = Some (fold_left (λ a c, a * 10 + strconv.digit c)
            (list_ascii_of_string s) acc).
Proof.
  revert acc. induction s as [|c s IH]; simpl; intros acc Hs; [done|].
  apply andb_true_iff in Hs as [-> Hs]. by apply IH.
Qed.

Lemma parseUintLoop_digits (s : string) (acc : Z) :
  forallb strconv.isDigit (list_ascii_of_string s) = true →
  0 ≤ acc →
  fold_left (λ a c, a * 10 + strconv.digit c) (list_ascii_of_string s) acc
    < 2 ^ 63 →
  strconv.parseUintLoop acc s
  = (fold_left (λ a c, a * 10 + strconv.digit c)
       (list_ascii_of_string s) acc, None).
Proof.
  revert acc. induction s as [|c s IH]; simpl; intros acc Hs Hacc Hlt; [done|].
  apply andb_true_iff in Hs as [Hc Hs]. rewrite Hc.
  pose proof (digit_range c Hc) as Hd.
  pose proof (fold_digits_ge (list_ascii_of_string s)
                (acc * 10 + strconv.digit c) Hs ltac:(lia)) as Hge.
  change (strconv.maxUint64 / 10 + 1) with 1844674407370955162.
  change strconv.maxUint64 with 18446744073709551615.
  change (2 ^ 63) with 9223372036854775808 in Hlt.
  destruct (Z.geb_spec acc 1844674407370955162); [lia|].
  destruct (Z.gtb_spec (acc * 10 + strconv.digit c) 18446744073709551615);
    [lia|].
  apply IH; [done|lia|done].
Qed.

(** [Atoi] reads a string of digits as the number it writes, as long as the
    number fits [int]. *)
Lemma Atoi_decimal (s : string) :
  isDecimal s = true → decimalValue s < 2 ^ 63 →
  strconv.Atoi s = (decimalValue s, None).
Proof.
  unfold isDecimal, decimalValue. intros [Hne Hs]%andb_true_iff Hlt.
  destruct s as [|c s]; [discriminate Hne|].
  assert (Hc : strconv.isDigit c = true).
  { simpl in Hs. by apply andb_true_iff in Hs as [? _]. }
  destruct (isDigit_not_sign c Hc) as [Hsign Hminus].
  pose proof (atoiLoop_digits (String c s) 0 Hs) as Hfast.
  pose proof (parseUintLoop_digits (String c s) 0 Hs ltac:(lia) Hlt) as Hslow.
  set (v := fold_left _ _ 0) in *.
  unfold strconv.Atoi.
  destruct ((0 <? strings.len (String c s)) && (strings.len (String c s) <? 19)).
  - by rewrite Hsign, Hminus, Hfast.
  - unfold strconv.ParseInt, strconv.ParseUint.
    rewrite Hsign, Hminus, Hslow.
    change (2 ^ (strconv.intSize - 1)) with (2 ^ 63).
    destruct (Z.geb_spec v (2 ^ 63)); [lia|done].
Qed.

End GoLibrary.

(** ** Package spanner *)

Lemma int64_small (n : Z) : - 2 ^ 63 ≤ n < 2 ^ 63 → int64 n = n.
Proof.
  intros Hn. unfold int64.
  rewrite Z.mod_small by lia. lia.
Qed.

Lemma decimalValue_nonneg (s : string) :
  isDecimal s = true → 0 ≤ decimalValue s.
Proof.
  unfold isDecimal, decimalValue. intros [_ Hs]%andb_true_iff.
  by apply fold_digits_ge.
Qed.

Lemma lookup_tag_insert (k v : string) (m : gmap string string) :
  tag.insert k v m !! k = Some (default v (m !! k)).
Proof.
  unfold tag.insert. destruct (m !! k) eqn:E; simpl; [done|].
  apply lookup_insert_eq.
Qed.

Lemma lookup_tag_insert_ne (k k' v : string) (m : gmap string string) :
  k ≠ k' → tag.insert k v m !! k' = m !! k'.
Proof.
  intros Hne. unfold tag.insert. destruct (m !! k); [done|].
  by apply lookup_insert_ne.
Qed.

Section Spanner.
Context `{ViewRegistry}.
Import spanner.

(** With the header present, [captureGFELatencyStats] ends in one of two
    ways: it records nothing and returns the error of [Atoi] (nil or not),
    or it returns nil having recorded one latency, in a context whose
    method tag was inserted, not overwritten.  It also stops, recording
    nothing, when [tag.New] refuses. *)
Lemma captureGFELatencyStats_present
    (ctx : tag.Context) (md : metadata.MD) (keyMethod v : string)
    (rest : list string) (w : World) :
  metadata.Get md "server-timing" = v :: rest →
  (∃ err, captureGFELatencyStats ctx md keyMethod w = (err, w, [])
      ∧ ((strings.HasPrefix v "gfet4t7; dur=" = false
          ∧ err = NumError <$>
                    (strconv.Atoi (strings.TrimPrefix v "gfet4t7; dur=")).2)
         ∨ is_Some err))
  ∨ (strings.HasPrefix v "gfet4t7; dur=" = true
     ∧ (strconv.Atoi (strings.TrimPrefix v "gfet4t7; dur=")).2 = None
     ∧ captureGFELatencyStats ctx md keyMethod w
       = (None, w,
          [EvRecord
             (Some (tag.insert tagKeyMethod keyMethod
                      (default ∅ (tag.FromContext ctx))))
             (stats.M GFELatency
                (int64 (strconv.Atoi
                          (strings.TrimPrefix v "gfet4t7; dur=")).1))])).
Proof.
  intros E. unfold captureGFELatencyStats. rewrite E.
  cbn [length Z.of_nat nth]. change (Z.pos _ =? 0) with false. cbv iota.
  destruct (strconv.Atoi _) as [n err].
  destruct (strings.HasPrefix v _); cbn [negb orb].
  2:{ left. eexists. split; [reflexivity|]. left. done. }
  destruct err as [e|]; cbn [notNil].
  { left. eexists. split; [reflexivity|]. right. by eexists. }
  unfold tag.New, tag.NewContext. cbn [tag.FromContext tag.tags].
  case_bool_decide; cbn [tag.applyMutators tag.Mutate].
  2:{ left. eexists. split; [reflexivity|]. right. by eexists. }
  destruct (tag.checkValue keyMethod).
  2:{ left. eexists. split; [reflexivity|]. right. by eexists. }
  right. done.
Qed.

(** Without the header, one unit goes to GFEHeaderMissingCount. *)
Lemma captureGFELatencyStats_absent
    (ctx : tag.Context) (md : metadata.MD) (keyMethod : string) (w : World) :
  metadata.Get md "server-timing" = [] →
  captureGFELatencyStats ctx md keyMethod w
  = (None, w,
     [EvRecord (tag.FromContext ctx) (stats.M GFEHeaderMissingCount 1)]).
Proof.
  intros E. unfold captureGFELatencyStats. by rewrite E.
Qed.

(** C3: when the metadata has no value under [server-timing], the capture
    records one unit on GFEHeaderMissingCount, with the tags of the
    context, and nothing else; it returns nil. *)
Theorem captureGFELatencyStats_header_missing
    (ctx : tag.Context) (md : metadata.MD) (keyMethod : string) (w : World) :
  metadata.Get md "server-timing" = [] →
  captureGFELatencyStats ctx md keyMethod w
  = (None, w,
     [EvRecord (tag.FromContext ctx) (stats.M GFEHeaderMissingCount 1)]).
Proof.
  intros E. unfold captureGFELatencyStats, recordStat, stats_Record, bind,
    emit, ret.
  rewrite E. reflexivity.
Qed.

(** C1, the input on which the code departs from the claim: a header with
    the value [42] lacks the prefix, and the capture returns nil (it
    records nothing). *)
Theorem captureGFELatencyStats_unprefixed_integer
    (ctx : tag.Context) (keyMethod : string) (w : World) :
  captureGFELatencyStats ctx {["server-timing" := ["42"]]} keyMethod w
  = (None, w, []).
Proof.
  by vm_compute.
Qed.

(** What holds of C1 on every input: a present header that lacks the
    prefix, or whose remainder [Atoi] refuses, leaves nothing recorded, and
    the error [Atoi] gave, if any, is returned. *)
Theorem captureGFELatencyStats_malformed_records_nothing
    (ctx : tag.Context) (md : metadata.MD) (keyMethod v : string)
    (rest : list string) (w : World) :
  metadata.Get md "server-timing" = v :: rest →
  strings.HasPrefix v "gfet4t7; dur=" = false
  ∨ is_Some (strconv.Atoi (strings.TrimPrefix v "gfet4t7; dur=")).2 →
  ∃ err,
    captureGFELatencyStats ctx md keyMethod w = (err, w, [])
    ∧ (is_Some (strconv.Atoi (strings.TrimPrefix v "gfet4t7; dur=")).2 →
       is_Some err).
Proof.
  intros E Hbad.
  destruct (captureGFELatencyStats_present ctx md keyMethod v rest w E)
    as [(err & Hrun & Herr)|(Hp & Ha & _)].
  - exists err. split; [done|]. intros Hs.
    destruct Herr as [[_ ->]|?]; [|done].
    destruct Hs as [e ->]. by eexists.
  - destruct Hbad as [Hbad|[e Hbad]]; congruence.
Qed.

(** A float64 holds every integer up to 2^53 in size: the conversion is
    exact there. *)
Lemma float64_exact (v : Z) : Z.abs v ≤ 2 ^ 53 → stats.float64 v = v.
Proof.
  intros Hv. unfold stats.float64. cbv zeta.
  destruct (Z.ltb_spec (Z.abs v) (2 ^ 53)) as [|Hge]; [done|].
  assert (Hcases : v = 2 ^ 53 ∨ v = - 2 ^ 53) by lia.
  destruct Hcases as [-> | ->]; vm_compute; reflexivity.
Qed.

(** C2, as amended: the first value is the prefix followed by a string of
    digits whose number fits [int].  When the method name is a valid tag
    value and the tags of the context are valid, the capture returns nil
    and records one measurement on GFELatency, whose value is that number
    as a float64: the number itself when it is at most 2^53; the recording
    context keeps every tag of the incoming one, and its method tag is the
    given name unless the incoming context already had one, which stays.
    When [tag.New] refuses, as it does for a method name that is not a
    valid tag value, the capture returns that error and records nothing. *)
Theorem captureGFELatencyStats_records_latency
    (ctx : tag.Context) (md : metadata.MD) (keyMethod N : string)
    (rest : list string) (w : World) :
  metadata.Get md "server-timing" = ("gfet4t7; dur=" +:+ N) :: rest →
  isDecimal N = true →
  decimalValue N < 2 ^ 63 →
  (tag.checkValue keyMethod = true →
   tag.wellFormed ctx →
   ∃ (tags : gmap string string) (m : stats.Measurement),
     captureGFELatencyStats ctx md keyMethod w
     = (None, w, [EvRecord (Some tags) m])
     ∧ stats.measure m = GFELatency
     ∧ stats.value m = stats.float64 (decimalValue N)
     ∧ (decimalValue N ≤ 2 ^ 53 → stats.value m = decimalValue N)
     ∧ tags !! tagKeyMethod
       = Some (default keyMethod (tag.FromContext ctx ≫= (.!! tagKeyMethod)))
     ∧ ∀ k, k ≠ tagKeyMethod →
         tags !! k = tag.FromContext ctx ≫= (.!! k))
  ∧ (∀ e,
       (tag.New (tag.NewContext ctx (tag.FromContext ctx))
          [tag.Insert tagKeyMethod keyMethod]).2 = Some e →
       captureGFELatencyStats ctx md keyMethod w = (Some (TagError e), w, []))
  ∧ (tag.checkValue keyMethod = false →
     tag.wellFormed ctx →
     captureGFELatencyStats ctx md keyMethod w
     = (Some (TagError tag.errInvalidValue), w, [])).
Proof.
  intros E HN Hfit.
  pose proof (decimalValue_nonneg N HN) as H0.
  assert (Hrun : captureGFELatencyStats ctx md keyMethod w
    = let '(ctx', err) :=
        tag.New (tag.NewContext ctx (tag.FromContext ctx))
          [tag.Insert tagKeyMethod keyMethod] in
      match err with
      | Some e => (Some (TagError e), w, [])
      | None =>
          (None, w,
           [EvRecord (tag.FromContext ctx')
              (stats.M GFELatency (decimalValue N))])
      end).
  { unfold captureGFELatencyStats. rewrite E.
    cbn [length Z.of_nat nth]. change (Z.pos _ =? 0) with false. cbv iota.
    rewrite TrimPrefix_app, HasPrefix_app, (Atoi_decimal N HN Hfit).
    cbn [negb orb notNil]. rewrite int64_small by lia.
    by destruct (tag.New _ _) as [ctx' [e|]]. }
  split; [|split].
  - intros Hm Hctx.
    exists (tag.insert tagKeyMethod keyMethod
              (default ∅ (tag.FromContext ctx))),
      (stats.M GFELatency (decimalValue N)).
    split; [|split; [|split; [|split; [|split]]]].
    + rewrite Hrun. unfold tag.New, tag.NewContext.
      cbn [tag.FromContext tag.tags].
      rewrite bool_decide_eq_true_2 by exact Hctx.
      cbn [tag.applyMutators tag.Mutate]. by rewrite Hm.
    + reflexivity.
    + reflexivity.
    + intros Hsmall. cbn [stats.M stats.value].
      apply float64_exact. lia.
    + rewrite lookup_tag_insert. f_equal.
      destruct (tag.FromContext ctx) as [t|]; simpl; [done|].
      by rewrite lookup_empty.
    + intros k Hk. rewrite lookup_tag_insert_ne by done.
      destruct (tag.FromContext ctx) as [t|]; simpl; [done|].
      by rewrite lookup_empty.
  - intros e He. rewrite Hrun.
    destruct (tag.New _ _) as [ctx' err]. cbn [snd] in He. by subst err.
  - intros Hm Hctx. rewrite Hrun. unfold tag.New, tag.NewContext.
    cbn [tag.FromContext tag.tags].
    rewrite bool_decide_eq_true_2 by exact Hctx.
    cbn [tag.applyMutators tag.Mutate]. by rewrite Hm.
Qed.

(** The four common tags are distinct from one another and from the method
    tag. *)
Lemma lookup_common_tags (m : gmap string string) (a b c d : string) :
  let m' := tag.upsert tagKeyLibVersion d
              (tag.upsert tagKeyInstance c
                 (tag.upsert tagKeyDatabase b
                    (tag.upsert tagKeyClientID a m))) in
  m' !! tagKeyClientID = Some a ∧ m' !! tagKeyDatabase = Some b
  ∧ m' !! tagKeyInstance = Some c ∧ m' !! tagKeyLibVersion = Some d.
Proof.
  unfold tag.upsert. cbv zeta.
  repeat split;
    repeat (first [ apply lookup_insert_eq
                  | rewrite lookup_insert_ne by done ]).
Qed.

(** C4, as amended: the four common tags that
    [createContextAndCaptureGFELatencyMetrics] puts into the context
    overwrite whatever the incoming context had under those keys (upsert):
    every measurement it records carries them.  The method tag that
    [captureGFELatencyStats] adds does not overwrite (insert): a latency is
    recorded under the method tag of the incoming context when it has one,
    and under the given method name otherwise. *)
Theorem tag_context_construction
    (ctx : tag.Context) (md : metadata.MD) (keyMethod : string) (w : World) :
  (∀ (ct : commonTags) tags m,
     EvRecord tags m
       ∈ (createContextAndCaptureGFELatencyMetrics ctx ct md keyMethod w).2 →
     ∃ t : gmap string string,
       tags = Some t
       ∧ t !! tagKeyClientID = Some (clientID ct)
       ∧ t !! tagKeyDatabase = Some (database ct)
       ∧ t !! tagKeyInstance = Some (instance ct)
       ∧ t !! tagKeyLibVersion = Some (libVersion ct))
  ∧ (∀ tags n,
       EvRecord tags (stats.mkMeasurement GFELatency n)
         ∈ (captureGFELatencyStats ctx md keyMethod w).2 →
       ∃ t : gmap string string,
         tags = Some t
         ∧ t !! tagKeyMethod
           = Some (default keyMethod
                     (tag.FromContext ctx ≫= (.!! tagKeyMethod)))).
Proof.
  split.
  - intros ct tags m. unfold createContextAndCaptureGFELatencyMetrics.
    unfold tag.New. case_bool_decide; [|by intros ?%elem_of_nil].
    cbn [tag.applyMutators tag.Mutate].
    repeat (destruct (tag.checkValue _); [|by intros ?%elem_of_nil]).
    cbn [tag.NewContext]. cbv beta iota zeta.
    set (t0 := tag.upsert _ _ _).
    pose proof (lookup_common_tags (default ∅ (tag.FromContext ctx))
                  (clientID ct) (database ct) (instance ct) (libVersion ct))
      as Ht. cbv zeta in Ht. fold t0 in Ht.
    destruct (metadata.Get md "server-timing") as [|v rest] eqn:E.
    + rewrite captureGFELatencyStats_absent by done.
      intros Hin%list_elem_of_singleton. injection Hin as -> _.
      by exists t0.
    + destruct (captureGFELatencyStats_present (tag.NewContext ctx (Some t0))
                  md keyMethod v rest w E)
        as [(err & -> & _)|(_ & _ & ->)]; [by intros ?%elem_of_nil|].
      intros Hin%list_elem_of_singleton. injection Hin as -> _.
      eexists. split; [done|]. cbn [tag.FromContext tag.tags default].
      by rewrite !lookup_tag_insert_ne.
  - intros tags n.
    destruct (metadata.Get md "server-timing") as [|v rest] eqn:E.
    + rewrite captureGFELatencyStats_absent by done.
      intros Hin%list_elem_of_singleton. by injection Hin.
    + destruct (captureGFELatencyStats_present ctx md keyMethod v rest w E)
        as [(err & -> & _)|(_ & _ & ->)]; [by intros ?%elem_of_nil|].
      intros Hin%list_elem_of_singleton. injection Hin as -> _.
      eexists. split; [done|]. rewrite lookup_tag_insert. f_equal.
      destruct (tag.FromContext ctx) as [m|]; simpl; [done|].
      by rewrite lookup_empty.
Qed.

(** The capture functions leave the world as it is, and emit measurements
    only. *)
Lemma captureGFELatencyStats_effects
    (ctx : tag.Context) (md : metadata.MD) (keyMethod : string) (w : World) :
  world (captureGFELatencyStats ctx md keyMethod w) = w
  ∧ Forall (λ e, isRecord e = true)
      (events (captureGFELatencyStats ctx md keyMethod w)).
Proof.
  destruct (metadata.Get md "server-timing") as [|v rest] eqn:E.
  - rewrite captureGFELatencyStats_absent by done.
    split; [done|]. by repeat constructor.
  - destruct (captureGFELatencyStats_present ctx md keyMethod v rest w E)
      as [(err & -> & _)|(_ & _ & ->)]; (split; [done|]);
      by repeat constructor.
Qed.

Lemma createContextAndCaptureGFELatencyMetrics_effects
    (ctx : tag.Context) (ct : commonTags) (md : metadata.MD)
    (keyMethod : string) (w : World) :
  world (createContextAndCaptureGFELatencyMetrics ctx ct md keyMethod w) = w
  ∧ Forall (λ e, isRecord e = true)
      (events (createContextAndCaptureGFELatencyMetrics ctx ct md keyMethod w)).
Proof.
  unfold createContextAndCaptureGFELatencyMetrics.
  destruct (tag.New ctx _) as [ctxGFE [e|]].
  - split; [done|]. constructor.
  - apply captureGFELatencyStats_effects.
Qed.

Lemma guarded_records (mu : RWMutex) (evs rest : list Event) :
  Forall (λ e, isRecord e = true) evs →
  guarded mu (evs ++ rest) = guarded mu rest.
Proof.
  induction 1 as [|e evs He _ IH]; [done|].
  destruct e; try discriminate He. exact IH.
Qed.







(** C6: each of the three enable functions takes the exclusive lock and
    writes true to the flag before it calls the registry, so the flag reads
    true once it has returned; the disable function writes false before it
    unregisters, so the flag reads false. *)
Theorem enable_disable_set_the_flag (w : World) :
  (events (EnableGfeLatencyView w)
     = [EvLock; EvFlagWrite true; EvUnlock; EvRegister [GFELatencyView]]
   ∧ result (getGFELatencyMetricsFlag (world (EnableGfeLatencyView w)))
     = true)
  ∧ (events (EnableGfeHeaderMissingCountView w)
       = [EvLock; EvFlagWrite true; EvUnlock;
          EvRegister [GFEHeaderMissingCountView]]
     ∧ result (getGFELatencyMetricsFlag
                 (world (EnableGfeHeaderMissingCountView w)))
       = true)
  ∧ (events (EnableGfeLatencyAndHeaderMissingCountViews w)
       = [EvLock; EvFlagWrite true; EvUnlock;
          EvRegister [GFELatencyView; GFEHeaderMissingCountView]]
     ∧ result (getGFELatencyMetricsFlag
                 (world (EnableGfeLatencyAndHeaderMissingCountViews w)))
       = true)
  ∧ (events (DisableGfeLatencyAndHeaderMissingCountViews w)
       = [EvLock; EvFlagWrite false; EvUnlock;
          EvUnregister [GFELatencyView; GFEHeaderMissingCountView]]
     ∧ result (getGFELatencyMetricsFlag
                 (world (DisableGfeLatencyAndHeaderMissingCountViews w)))
       = false).
Proof.
  unfold EnableGfeLatencyView, EnableGfeHeaderMissingCountView,
    EnableGfeLatencyAndHeaderMissingCountViews,
    DisableGfeLatencyAndHeaderMissingCountViews, getGFELatencyMetricsFlag,
    setGFELatencyMetricsFlag, Register, Unregister, bind, statsMu_Lock,
    statsMu_Unlock, statsMu_RLock, statsMu_RUnlock, readFlag, writeFlag,
    emit, ret, events, world, result.
  cbn [fst snd registry gfeLatencyMetricsEnabled].
  repeat split; by destruct (view_Register _ _).
Qed.

(** C7: when the registry refuses the views, an enable function returns the
    error of the registry and the flag stays true: nothing undoes the
    write. *)
Theorem enable_keeps_flag_on_registration_error (w : World) (e : error) :
  ((view_Register [GFELatencyView] (registry w)).2 = Some e →
   result (EnableGfeLatencyView w) = Some e
   ∧ gfeLatencyMetricsEnabled (world (EnableGfeLatencyView w)) = true)
  ∧ ((view_Register [GFEHeaderMissingCountView] (registry w)).2 = Some e →
     result (EnableGfeHeaderMissingCountView w) = Some e
     ∧ gfeLatencyMetricsEnabled (world (EnableGfeHeaderMissingCountView w))
       = true)
  ∧ ((view_Register [GFELatencyView; GFEHeaderMissingCountView]
        (registry w)).2 = Some e →
     result (EnableGfeLatencyAndHeaderMissingCountViews w) = Some e
     ∧ gfeLatencyMetricsEnabled
         (world (EnableGfeLatencyAndHeaderMissingCountViews w))
       = true).
Proof.
  unfold EnableGfeLatencyView, EnableGfeHeaderMissingCountView,
    EnableGfeLatencyAndHeaderMissingCountViews, setGFELatencyMetricsFlag,
    Register, bind, statsMu_Lock, statsMu_Unlock, writeFlag, emit, ret,
    world, result.
  cbn [fst snd registry gfeLatencyMetricsEnabled].
  repeat split; destruct (view_Register _ _); done.
Qed.

(** Disabling twice in a row leaves the flag false both times; the
    function returns no error value at all. *)
Theorem disable_twice_leaves_flag_false (w : World) :
  gfeLatencyMetricsEnabled
    (world (DisableGfeLatencyAndHeaderMissingCountViews w)) = false
  ∧ gfeLatencyMetricsEnabled
      (world (DisableGfeLatencyAndHeaderMissingCountViews
                (world (DisableGfeLatencyAndHeaderMissingCountViews w))))
    = false.
Proof. split; reflexivity. Qed.

End Spanner.

Section CommonTags.
Context `{Repository}.
Import spanner.

(** C8: [getCommonTags] returns nil, and no error, for a client whose
    database name does not parse; otherwise the tags are the client id, the
    database and instance names the parser found, and [version.Repo]. *)
Theorem getCommonTags_spec (sc : sessionClient) :
  (∀ project instance database e,
     parseDatabaseName (sc_database sc)
     = (project, instance, database, Some e) →
     getCommonTags sc = None)
  ∧ (∀ project instance database,
       parseDatabaseName (sc_database sc)
       = (project, instance, database, None) →
       getCommonTags sc
       = Some (mkCommonTags (sc_id sc) database instance version_Repo)).
Proof.
  unfold getCommonTags. split; intros; by rewrite H0.
Qed.

End CommonTags.

(** ** Package compute *)

Section Compute.
Context `{compute.Protobuf} `{!compute.Transport}.
Import compute.

(** The keys of the query parameters of [List], each added at most once:
    [Encode] writes them in the order of the keys. *)
Lemma List_query_encoding (f o p : option string) (m : option string)
    (r : option string) :
  url.Encode
    (addParam "returnPartialSuccess" r
       (addParam "pageToken" p
          (addParam "orderBy" o
             (addParam "maxResults" m
                (addParam "filter" f ∅)))))
  = String.concat "&"
      (queryParam "filter" f ++ queryParam "maxResults" m
       ++ queryParam "orderBy" o ++ queryParam "pageToken" p
       ++ queryParam "returnPartialSuccess" r).
Proof.
  destruct f, m, o, p, r; encode_known_keys; reflexivity.
Qed.

(** C9, as amended: [List] asks for the URL whose path is the path of the
    endpoint followed by [/compute/v1/projects/{project}/zones/{zone}/disks]
    (that path alone when the endpoint has no path), and whose query string
    has, in the order of the keys, one [key=value] for
    each of filter, maxResults, orderBy, pageToken and returnPartialSuccess
    that is set in the request, with the value of the field as [%v] prints
    it, query-escaped, and nothing for a field that is not set. *)
Theorem List_request_url (c : disksRESTClient)
    (req : option ListDisksRequest.t) (jsonReq : list Byte.byte)
    (base : url.URL) :
  protojson_Marshal (MsgListDisksRequest req) = inl jsonReq →
  url_Parse (endpoint c) = inl base →
  ∃ u,
    head (trace_of (List c req)) = Some (EvNewRequest "GET" u jsonReq)
    ∧ url.Path u
      = url.Path base +:+ "/compute/v1/projects/"
        +:+ get ListDisksRequest.Project "" req +:+ "/zones/"
        +:+ get ListDisksRequest.Zone "" req +:+ "/disks"
    ∧ (url.Path base = "" →
       url.Path u
       = "/compute/v1/projects/" +:+ get ListDisksRequest.Project "" req
         +:+ "/zones/" +:+ get ListDisksRequest.Zone "" req +:+ "/disks")
    ∧ url.RawQuery u
      = String.concat "&"
          (queryParam "filter" (opt ListDisksRequest.Filter req)
           ++ queryParam "maxResults"
                (fmt.v_uint32 <$> opt ListDisksRequest.MaxResults req)
           ++ queryParam "orderBy" (opt ListDisksRequest.OrderBy req)
           ++ queryParam "pageToken" (opt ListDisksRequest.PageToken req)
           ++ queryParam "returnPartialSuccess"
                (fmt.v_bool
                   <$> opt ListDisksRequest.ReturnPartialSuccess req)).
Proof.
  intros Hm Hp. eexists. split; [|split; [|split]].
  - unfold List, start. rewrite Hm, Hp. unfold send.
    destruct (http_NewRequest _ _ _) as [r|e]; [|reflexivity].
    destruct (httpClient c) as [Do|]; [|reflexivity].
    destruct (Do _) as [rsp|e]; [|reflexivity].
    destruct (negb _); [reflexivity|].
    destruct (ioutil_ReadAll _); [|reflexivity].
    by destruct (protojson_Unmarshal _ _).
  - reflexivity.
  - intros Hbase. cbn [setRawQuery addPath url.Path]. by rewrite Hbase.
  - cbn [setRawQuery url.RawQuery].
    assert (Hid : ∀ o : option string, fmt.v_string <$> o = o)
      by (by intros [?|]).
    rewrite !Hid. apply List_query_encoding.
Qed.

End Compute.

(** ** The theorems at concrete inputs *)

(** C3 on a response without metadata. *)
Lemma captureGFELatencyStats_header_missing_witness :
  metadata.Get ∅ "server-timing" = []
  ∧ spanner.captureGFELatencyStats (tag.mkContext None) ∅ "Read"
      testing.world0
    = (None, testing.world0,
       [spanner.EvRecord None (stats.M spanner.GFEHeaderMissingCount 1)]).
Proof.
  split; [reflexivity|].
  apply (@captureGFELatencyStats_header_missing testing.memoryRegistry).
  reflexivity.
Defined.

(** The sound part of C1 on the header [foo; dur=42] of the spec. *)
Lemma captureGFELatencyStats_malformed_witness :
  ∃ err,
    spanner.captureGFELatencyStats (tag.mkContext None)
      {["server-timing" := ["foo; dur=42"]]} "Read" testing.world0
    = (err, testing.world0, [])
    ∧ (is_Some (strconv.Atoi
                  (strings.TrimPrefix "foo; dur=42" "gfet4t7; dur=")).2 →
       is_Some err).
Proof.
  apply (@captureGFELatencyStats_malformed_records_nothing
           testing.memoryRegistry (tag.mkContext None)
           {["server-timing" := ["foo; dur=42"]]} "Read" "foo; dur=42" []).
  - vm_compute. reflexivity.
  - left. vm_compute. reflexivity.
Defined.

(** C2 on the scenario of the spec: header [gfet4t7; dur=42], method
    [Read], a context that carries a client id; and on the same header
    with a method name that starts with a line feed. *)
Lemma captureGFELatencyStats_records_latency_witness :
  (∃ (tags : gmap string string) (m : stats.Measurement),
     spanner.captureGFELatencyStats
       (tag.mkContext (Some {["client_id" := "client-1"]}))
       {["server-timing" := ["gfet4t7; dur=42"]]} "Read" testing.world0
     = (None, testing.world0, [spanner.EvRecord (Some tags) m])
     ∧ stats.measure m = spanner.GFELatency
     ∧ stats.value m = 42
     ∧ tags !! spanner.tagKeyMethod = Some "Read"
     ∧ tags !! spanner.tagKeyClientID = Some "client-1")
  ∧ spanner.captureGFELatencyStats (tag.mkContext None)
      {["server-timing" := ["gfet4t7; dur=42"]]} (String "010"%char "Read")
      testing.world0
    = (Some (TagError tag.errInvalidValue), testing.world0, []).
Proof.
  split.
  - destruct (@captureGFELatencyStats_records_latency testing.memoryRegistry
                (tag.mkContext (Some {["client_id" := "client-1"]}))
                {["server-timing" := ["gfet4t7; dur=42"]]} "Read" "42" []
                testing.world0)
      as [Hok _]; [vm_compute; reflexivity..|].
    destruct Hok as (tags & m & Hrun & Hmeasure & _ & Hvalue & Hmethod & Hkeep).
    + reflexivity.
    + apply (bool_decide_unpack _). vm_compute. exact I.
    + exists tags, m. split; [exact Hrun|]. split; [exact Hmeasure|].
      split; [apply Hvalue; vm_compute; discriminate|].
      split; [rewrite Hmethod; reflexivity|].
      rewrite (Hkeep spanner.tagKeyClientID) by discriminate.
      reflexivity.
  - destruct (@captureGFELatencyStats_records_latency testing.memoryRegistry
                (tag.mkContext None)
                {["server-timing" := ["gfet4t7; dur=42"]]}
                (String "010"%char "Read") "42" [] testing.world0)
      as (_ & Hrefused & _); [vm_compute; reflexivity..|].
    apply Hrefused. vm_compute. reflexivity.
Defined.

(** C2 as stated fails: a method name with a line feed is not a valid tag
    value, [tag.New] refuses it, and the capture returns that error without
    recording the latency of a well-formed header. *)
Lemma captureGFELatencyStats_invalid_method_name :
  ¬ (∀ (R : ViewRegistry) (ctx : tag.Context) (md : metadata.MD)
       (keyMethod N : string) (rest : list string) (w : spanner.World),
       metadata.Get md "server-timing" = ("gfet4t7; dur=" +:+ N) :: rest →
       isDecimal N = true →
       ∃ tags : gmap string string,
         spanner.captureGFELatencyStats ctx md keyMethod w
         = (None, w,
            [spanner.EvRecord (Some tags)
               (stats.mkMeasurement spanner.GFELatency (decimalValue N))])
         ∧ tags !! spanner.tagKeyMethod = Some keyMethod).
Proof.
  intros Hclaim.
  destruct (Hclaim testing.memoryRegistry (tag.mkContext None)
              {["server-timing" := ["gfet4t7; dur=42"]]}
              (String "010"%char "Read") "42" [] testing.world0)
    as (tags & Hrun & _).
  - vm_compute. reflexivity.
  - vm_compute. reflexivity.
  - apply (f_equal spanner.result) in Hrun.
    vm_compute in Hrun. discriminate Hrun.
Qed.

(** A number of digits past the range of [int] is a range error of [Atoi],
    which the capture returns. *)
Example captureGFELatencyStats_overflow :
  spanner.captureGFELatencyStats (tag.mkContext None)
    {["server-timing" := ["gfet4t7; dur=9223372036854775808"]]} "Read"
    testing.world0
  = (Some (NumError
             (strconv.mkNumError "Atoi" "9223372036854775808"
                strconv.ErrRange)),
     testing.world0, []).
Proof. vm_compute. reflexivity. Qed.

(** A number past 2^53 does not fit a float64: 9007199254740993 is
    recorded as 9007199254740992. *)
Example captureGFELatencyStats_rounds_past_53_bits :
  spanner.captureGFELatencyStats (tag.mkContext None)
    {["server-timing" := ["gfet4t7; dur=9007199254740993"]]} "Read"
    testing.world0
  = (None, testing.world0,
     [spanner.EvRecord (Some {["grpc_client_method" := "Read"]})
        (stats.mkMeasurement spanner.GFELatency 9007199254740992)]).
Proof. vm_compute. reflexivity. Qed.

(** The scenario of the spec with a foreign prefix: [Atoi] refuses the
    whole value, and the capture returns its syntax error. *)
Example captureGFELatencyStats_foreign_prefix :
  spanner.captureGFELatencyStats (tag.mkContext None)
    {["server-timing" := ["foo; dur=42"]]} "Read" testing.world0
  = (Some (NumError
             (strconv.mkNumError "Atoi" "foo; dur=42" strconv.ErrSyntax)),
     testing.world0, []).
Proof. vm_compute. reflexivity. Qed.

(** C4 on a context that carries a method tag and a client id already. *)
Lemma tag_context_construction_witness :
  (∃ t : gmap string string,
     Some (<["library_version" := "20201104"]>
             (<["instance_id" := "i"]>
                (<["database" := "d"]>
                   (<["client_id" := "client-2"]>
                      ({["client_id" := "client-1"]}
                         : gmap string string))))) = Some t
     ∧ t !! spanner.tagKeyClientID = Some "client-2"
     ∧ t !! spanner.tagKeyDatabase = Some "d"
     ∧ t !! spanner.tagKeyInstance = Some "i"
     ∧ t !! spanner.tagKeyLibVersion = Some "20201104")
  ∧ (∃ t : gmap string string,
       Some ({["grpc_client_method" := "Commit"]} : gmap string string)
       = Some t
       ∧ t !! spanner.tagKeyMethod = Some "Commit").
Proof.
  split.
  - apply (proj1 (@tag_context_construction testing.memoryRegistry
                    (tag.mkContext (Some {["client_id" := "client-1"]}))
                    ∅ "Read" testing.world0)
             (spanner.mkCommonTags "client-2" "d" "i" "20201104") _
             (stats.M spanner.GFEHeaderMissingCount 1)).
    vm_compute. constructor.
  - destruct (proj2 (@tag_context_construction testing.memoryRegistry
                       (tag.mkContext
                          (Some {["grpc_client_method" := "Commit"]}))
                       {["server-timing" := ["gfet4t7; dur=42"]]} "Read"
                       testing.world0)
                (Some {["grpc_client_method" := "Commit"]}) 42)
      as (t & Ht & Hlookup).
    + vm_compute. constructor.
    + exists t. split; [exact Ht|]. rewrite Hlookup. vm_compute. reflexivity.
Defined.

(** C4 as stated fails for the method tag: a latency captured for method
    [Read] in a context already tagged with method [Commit] is recorded
    under [Commit]. *)
Lemma method_tag_is_not_overwritten :
  ¬ (∀ (R : ViewRegistry) (ctx : tag.Context) (md : metadata.MD)
       (keyMethod : string) (w : spanner.World)
       (tags : option (gmap string string)) (n : Z),
       spanner.EvRecord tags (stats.mkMeasurement spanner.GFELatency n)
         ∈ spanner.events (spanner.captureGFELatencyStats ctx md keyMethod w) →
       ∃ t : gmap string string,
         tags = Some t ∧ t !! spanner.tagKeyMethod = Some keyMethod).
Proof.
  intros Hclaim.
  destruct (Hclaim testing.memoryRegistry
              (tag.mkContext (Some {["grpc_client_method" := "Commit"]}))
              {["server-timing" := ["gfet4t7; dur=42"]]} "Read"
              testing.world0
              (Some {["grpc_client_method" := "Commit"]}) 42)
    as (t & Ht & Hlookup).
  - vm_compute. constructor.
  - injection Ht as <-. vm_compute in Hlookup. discriminate Hlookup.
Qed.



(** C7 on a registry where the name of [GFELatencyView] is taken by a
    different view. *)
Lemma enable_keeps_flag_on_registration_error_witness :
  spanner.result (spanner.EnableGfeLatencyView testing.world1)
  = Some (RegistrationError
            "a different view with the same name is already registered")
  ∧ spanner.gfeLatencyMetricsEnabled
      (spanner.world (spanner.EnableGfeLatencyView testing.world1))
    = true.
Proof.
  apply (proj1 (@enable_keeps_flag_on_registration_error
                  testing.memoryRegistry testing.world1 _)).
  vm_compute. reflexivity.
Defined.

(** C8 on a well-formed and an ill-formed database name. *)
Lemma getCommonTags_spec_witness :
  @spanner.getCommonTags testing.repository
    (spanner.mkSessionClient "client-1" "projects/p/instances/i/databases/d")
  = Some (spanner.mkCommonTags "client-1" "d" "i" "20201104")
  ∧ @spanner.getCommonTags testing.repository
      (spanner.mkSessionClient "client-1" "projects/p/databases/d")
    = None.
Proof.
  split.
  - apply (proj2 (@getCommonTags_spec testing.repository
                    (spanner.mkSessionClient "client-1"
                       "projects/p/instances/i/databases/d")) "p").
    reflexivity.
  - apply (proj1 (@getCommonTags_spec testing.repository
                    (spanner.mkSessionClient "client-1"
                       "projects/p/databases/d")) "" "" ""
             (ParseDatabaseNameError "Failed to parse database name")).
    reflexivity.
Defined.

(** C9 on a request that sets four of the five optional fields, sent to
    an endpoint without a path. *)
Lemma List_request_url_witness :
  ∃ u,
    head (compute.trace_of
            (@compute.List testing.protobuf testing.transport
               testing.client404 (Some testing.listRequest)))
    = Some (compute.EvNewRequest "GET" u [])
    ∧ url.Path u = "/compute/v1/projects/proj/zones/zone-a/disks"
    ∧ url.RawQuery u
      = "filter=name+%3D+a%26b&maxResults=5&pageToken=tok&returnPartialSuccess=true".
Proof.
  destruct (@List_request_url testing.protobuf testing.transport
              testing.client404 (Some testing.listRequest) []
              (url.mkURL "https" "compute.googleapis.com" "" "" ""))
    as (u & Hhead & _ & Hpath & Hquery).
  - reflexivity.
  - reflexivity.
  - exists u. split; [exact Hhead|]. rewrite (Hpath eq_refl), Hquery.
    split; vm_compute; reflexivity.
Defined.

(** C9 as stated fails: the path of the request starts with the path of
    the endpoint.  At the default endpoint of the package,
    [compute.googleapis.com], which has no scheme, [url.Parse] takes the
    whole endpoint for a path, and the path [List] builds starts with
    it. *)
Lemma List_path_starts_with_the_endpoint_path :
  ¬ (∀ (P : compute.Protobuf) (T : compute.Transport)
       (c : compute.disksRESTClient)
       (req : option compute.ListDisksRequest.t) (jsonReq : list Byte.byte)
       (base : url.URL),
       compute.protojson_Marshal (compute.MsgListDisksRequest req)
       = inl jsonReq →
       compute.url_Parse (compute.endpoint c) = inl base →
       ∃ u,
         head (compute.trace_of (compute.List c req))
         = Some (compute.EvNewRequest "GET" u jsonReq)
         ∧ url.Path u
           = "/compute/v1/projects/"
             +:+ compute.get compute.ListDisksRequest.Project "" req
             +:+ "/zones/" +:+ compute.get compute.ListDisksRequest.Zone "" req
             +:+ "/disks").
Proof.
  intros Hclaim.
  destruct (Hclaim testing.protobuf testing.transport
              testing.clientDefaultEndpoint (Some testing.listRequest) []
              (url.mkURL "" "" "compute.googleapis.com" "" ""))
    as (u & Hhead & Hpath).
  - reflexivity.
  - reflexivity.
  - apply (f_equal (λ e, match e with
                         | Some (compute.EvNewRequest _ u' _) => url.Path u'
                         | _ => ""
                         end)) in Hhead.
    rewrite Hpath in Hhead. vm_compute in Hhead. discriminate Hhead.
Qed.

(** ** Package compute: every operation *)

Section ComputeOperations.
Context `{compute.Protobuf} `{!compute.Transport}.
Import compute.

Lemma start_ext (c : disksRESTClient) (body : protoMessage)
    (k k' : list Byte.byte → url.URL → Outcome) :
  (∀ jsonReq baseUrl, k jsonReq baseUrl = k' jsonReq baseUrl) →
  start c body k = start c body k'.
Proof.
  intros Hk. unfold start.
  destruct (protojson_Marshal body); [|done].
  destruct (url_Parse (endpoint c)); [apply Hk|done].
Qed.

(** Each operation is [start] followed by [send], on the message, method,
    URL and answer type tabulated for it. *)
Lemma call_as_send (c : disksRESTClient) (op : Op) :
  call c op
  = start c (marshalled op)
      (λ jsonReq baseUrl,
         send c (httpMethod op) (requestURL baseUrl op) jsonReq
           (answerKind op)).
Proof.
  destruct op; cbn [call marshalled httpMethod answerKind];
    unfold AddResourcePolicies, AggregatedList, CreateSnapshot, Delete, Get,
      GetIamPolicy, Insert, List, RemoveResourcePolicies, Resize,
      SetIamPolicy, SetLabels, TestIamPermissions;
    apply start_ext; intros jsonReq baseUrl; f_equal; request_url.
Qed.

(** C10: in each of the 13 operations, when the message marshals, the
    endpoint parses, the request is built and the HTTP client answers it
    with a response whose status code is not 200, the operation returns a
    nil message and the error [fmt.Errorf(httpRsp.Status)]; after the
    exchange it only closes the body: nothing is read from it, and nothing
    is unmarshalled. *)
Theorem non_OK_status_is_an_error (c : disksRESTClient) (op : Op)
    (jsonReq : list Byte.byte) (base : url.URL) (httpReq : http.Request)
    (Do : http.Request → Response + error) (httpRsp : Response) :
  protojson_Marshal (marshalled op) = inl jsonReq →
  url_Parse (endpoint c) = inl base →
  http_NewRequest (httpMethod op) (url_String (requestURL base op)) jsonReq
  = inl httpReq →
  httpClient c = Some Do →
  Do (http.mkRequest (http.Method httpReq) (http.URL httpReq)
        (http.Body httpReq)
        (<["Content-Type" := ["application/json"]]>
           (xGoogMetadata c ∪ http.Header httpReq)))
  = inl httpRsp →
  StatusCode httpRsp ≠ http.StatusOK →
  call c op
  = Returned None (Some (Errorf (Status httpRsp)))
      [EvNewRequest (httpMethod op) (requestURL base op) jsonReq;
       EvDo (http.mkRequest (http.Method httpReq) (http.URL httpReq)
               (http.Body httpReq)
               (<["Content-Type" := ["application/json"]]>
                  (xGoogMetadata c ∪ http.Header httpReq)))
         (inl httpRsp);
       EvClose (RspBody httpRsp)]
  ∧ existsb isReadAll (trace_of (call c op)) = false
  ∧ existsb isUnmarshal (trace_of (call c op)) = false.
Proof.
  intros Hm Hp Hr Hc HDo Hcode.
  assert (Hrun : call c op
    = Returned None (Some (Errorf (Status httpRsp)))
        [EvNewRequest (httpMethod op) (requestURL base op) jsonReq;
         EvDo (http.mkRequest (http.Method httpReq) (http.URL httpReq)
                 (http.Body httpReq)
                 (<["Content-Type" := ["application/json"]]>
                    (xGoogMetadata c ∪ http.Header httpReq)))
           (inl httpRsp);
         EvClose (RspBody httpRsp)]).
  { rewrite call_as_send. unfold start, send.
    rewrite Hm, Hp, Hr, Hc, HDo.
    by destruct (Z.eqb_spec (StatusCode httpRsp) http.StatusOK). }
  rewrite Hrun. by repeat split.
Qed.

(** The header of a request that is sent. *)
Lemma sent_request_headers (c : disksRESTClient) (op : Op)
    (req : http.Request) (answer : Response + error) :
  EvDo req answer ∈ trace_of (call c op) →
  http.Header req !! "Content-Type" = Some ["application/json"]
  ∧ ∀ k v, k ≠ "Content-Type" → xGoogMetadata c !! k = Some v →
      http.Header req !! k = Some v.
Proof.
  rewrite call_as_send. unfold start, send.
  repeat case_match; cbn [trace_of];
    rewrite ?elem_of_cons, ?elem_of_nil; intros Hin;
    repeat (destruct Hin as [Hin|Hin]); try done;
    injection Hin as -> _; cbn [http.Header];
    (split; [apply lookup_insert_eq|]);
    intros k v Hk Hv; rewrite lookup_insert_ne by done;
    by apply lookup_union_Some_l.
Qed.

(** Every request sent is JSON and carries the metadata of the client:
    [Content-Type] is [application/json] whatever [http.NewRequest] or the
    metadata say, and every other key of [xGoogMetadata] has its values in
    the header. *)
Theorem requests_carry_client_headers (c : disksRESTClient) (op : Op)
    (req : http.Request) (answer : Response + error) :
  EvDo req answer ∈ trace_of (call c op) →
  http.Header req !! "Content-Type" = Some ["application/json"]
  ∧ ∀ k v, k ≠ "Content-Type" → xGoogMetadata c !! k = Some v →
      http.Header req !! k = Some v.
Proof. apply sent_request_headers. Qed.

(** When [protojson.Marshal] refuses the message, the operation returns
    that error with a nil message and has built no request. *)
Theorem marshal_error_sends_nothing (c : disksRESTClient) (op : Op)
    (e : error) :
  protojson_Marshal (marshalled op) = inr e →
  call c op = Returned None (Some e) [].
Proof.
  intros Hm. rewrite call_as_send. unfold start. by rewrite Hm.
Qed.

(** The error of [url.Parse] is dropped: with an endpoint that does not
    parse, an operation whose message marshals panics on the nil URL,
    before any request is built. *)
Theorem unparsable_endpoint_panics (c : disksRESTClient) (op : Op)
    (jsonReq : list Byte.byte) (e : error) :
  protojson_Marshal (marshalled op) = inl jsonReq →
  url_Parse (endpoint c) = inr e →
  call c op = Panicked [].
Proof.
  intros Hm Hp. rewrite call_as_send. unfold start. by rewrite Hm, Hp.
Qed.

(** The request of every operation: the method, the URL (the path of the
    endpoint followed by the path of the operation; the parameters that are
    set, in the order of their keys) and the marshalled body. *)
Theorem request_of_every_operation (c : disksRESTClient) (op : Op)
    (jsonReq : list Byte.byte) (base : url.URL) :
  protojson_Marshal (marshalled op) = inl jsonReq →
  url_Parse (endpoint c) = inl base →
  head (trace_of (call c op))
  = Some (EvNewRequest (httpMethod op) (requestURL base op) jsonReq).
Proof.
  intros Hm Hp. rewrite call_as_send. unfold start, send.
  rewrite Hm, Hp. by repeat case_match.
Qed.



(** An operation makes at most one HTTP exchange, whatever the call options
    say, and the body of a response it got is closed, once, as the last
    thing it does; nothing is closed when there was no response. *)
Theorem one_exchange_and_body_closed (c : disksRESTClient) (op : Op) :
  (length (List.filter isDo (trace_of (call c op))) ≤ 1)%nat
  ∧ (∀ req httpRsp,
       EvDo req (inl httpRsp) ∈ trace_of (call c op) →
       last (trace_of (call c op)) = Some (EvClose (RspBody httpRsp))
       ∧ length (List.filter isClose (trace_of (call c op))) = 1%nat)
  ∧ ((∀ req httpRsp, EvDo req (inl httpRsp) ∉ trace_of (call c op)) →
     existsb isClose (trace_of (call c op)) = false).
Proof.
  rewrite call_as_send. unfold start, send.
  repeat case_match; cbn [trace_of]; (split; [|split]);
    try (cbn; lia);
    try (intros req rsp; rewrite ?elem_of_cons, ?elem_of_nil; intros Hin;
         repeat (destruct Hin as [Hin|Hin]); try done; simplify_eq;
         by split);
    try done.
  all: intros Hno; exfalso; eapply Hno;
    apply list_elem_of_further, list_elem_of_here.
Qed.

(** [Close] returns nil and only forgets the HTTP client; closing twice is
    closing once.  A closed client exchanges nothing with the server. *)
Theorem closed_client_sends_nothing (c : disksRESTClient) (op : Op) :
  (Close c).2 = None
  ∧ Close (Close c).1 = Close c
  ∧ endpoint (Close c).1 = endpoint c
  ∧ xGoogMetadata (Close c).1 = xGoogMetadata c
  ∧ existsb isDo (trace_of (call (Close c).1 op)) = false.
Proof.
  repeat split. rewrite call_as_send. unfold start, send, Close.
  cbn [fst httpClient endpoint]. by repeat case_match.
Qed.

Lemma upperhex_escaped (n : nat) : url.isEscaped (url.upperhex n) = true.
Proof. do 17 (destruct n as [|n]; [reflexivity|]). reflexivity. Qed.

Lemma QueryEscape_escaped (s : string) :
  url.allEscaped (url.QueryEscape s) = true.
Proof.
  unfold url.allEscaped. induction s as [|c s IH]; [done|].
  cbn [url.QueryEscape]. unfold url.shouldEscape.
  destruct (url.isAlnum c) eqn:Ea.
  { cbn [list_ascii_of_string forallb]. rewrite IH.
    unfold url.isEscaped. by rewrite Ea. }
  destruct (Ascii.eqb c "-" || Ascii.eqb c "_" || Ascii.eqb c "."
            || Ascii.eqb c "~") eqn:Em.
  { cbn [list_ascii_of_string forallb]. rewrite IH.
    unfold url.isEscaped. rewrite Ea. cbn [orb].
    rewrite Em. done. }
  destruct (Ascii.eqb c " "); cbn [list_ascii_of_string forallb];
    rewrite ?upperhex_escaped, IH; done.
Qed.

Lemma queryParam_escaped (key : string) (value : option string) :
  Forall (λ p, ∃ k v, p = k +:+ "=" +:+ v
                      ∧ url.allEscaped k = true ∧ url.allEscaped v = true)
    (queryParam key value).
Proof.
  destruct value as [v|]; [|constructor].
  repeat constructor. eexists _, _. split; [reflexivity|].
  split; apply QueryEscape_escaped.
Qed.

(** No value can break out of its parameter: the query string an operation
    writes is a list of [key=value] joined by [&] in which every key and
    every value consists of unreserved characters, [%] and [+] only,
    whatever bytes the fields of the request hold. *)
Theorem query_string_is_escaped (c : disksRESTClient) (op : Op)
    (jsonReq : list Byte.byte) (base : url.URL) (pairs : list string) :
  protojson_Marshal (marshalled op) = inl jsonReq →
  url_Parse (endpoint c) = inl base →
  requestQuery op = Some pairs →
  ∃ u,
    head (trace_of (call c op)) = Some (EvNewRequest (httpMethod op) u jsonReq)
    ∧ url.RawQuery u = String.concat "&" pairs
    ∧ Forall (λ p, ∃ k v, p = k +:+ "=" +:+ v
                          ∧ url.allEscaped k = true ∧ url.allEscaped v = true)
        pairs.
Proof.
  intros Hm Hp Hq. exists (requestURL base op). split; [|split].
  - rewrite call_as_send. unfold start, send.
    rewrite Hm, Hp. by repeat case_match.
  - unfold requestURL. cbn [url.RawQuery]. by rewrite Hq.
  - destruct op; cbn [requestQuery] in Hq; try discriminate Hq;
      injection Hq as <-;
      repeat (apply Forall_app; split); apply queryParam_escaped.
Qed.

End ComputeOperations.

(** ** Package spanner: more on the capture and on sequences of calls *)


Lemma guarded_app (mu : spanner.RWMutex) (a b : list spanner.Event) :
  spanner.guarded mu a = true →
  spanner.guarded mu (a ++ b) = spanner.guarded spanner.unlocked b.
Proof.
  revert mu. induction a as [|e a IH]; intros mu.
  - destruct mu as [[] [|n]]; cbn; done.
  - destruct e; cbn [spanner.guarded app];
      rewrite ?andb_true_iff; intros Hg; destruct_and?;
      repeat match goal with
      | Hc : ?x = true |- context [?x] => rewrite Hc
      end; cbn [andb]; by apply IH.
Qed.

Lemma lastFlagWrite_app (current : bool) (a b : list spanner.Event) :
  spanner.lastFlagWrite current (a ++ b)
  = spanner.lastFlagWrite (spanner.lastFlagWrite current a) b.
Proof.
  revert current. induction a as [|e a IH]; intros current; [done|].
  destruct e; cbn [spanner.lastFlagWrite app]; apply IH.
Qed.

Lemma readsAreCurrent_app (current : bool) (a b : list spanner.Event) :
  spanner.readsAreCurrent current (a ++ b)
  = spanner.readsAreCurrent current a
    && spanner.readsAreCurrent (spanner.lastFlagWrite current a) b.
Proof.
  revert current. induction a as [|e a IH]; intros current; [done|].
  destruct e; cbn [spanner.readsAreCurrent spanner.lastFlagWrite app];
    rewrite ?IH, ?andb_assoc; done.
Qed.

Lemma records_keep_the_flag (current : bool) (evs : list spanner.Event) :
  Forall (λ e, spanner.isRecord e = true) evs →
  spanner.lastFlagWrite current evs = current
  ∧ spanner.readsAreCurrent current evs = true.
Proof.
  induction 1 as [|e evs He _ IH]; [done|].
  destruct e; try discriminate He. exact IH.
Qed.

Section SpannerSequences.
Context `{ViewRegistry}.
Import spanner.

(** One call: its trace keeps the locking discipline, the flag it leaves is
    the last value its trace wrote, and its reads saw the flag as it
    was. *)
Lemma run_tracks_the_flag (c : Call) (w : World) :
  guarded unlocked (run c w).2 = true
  ∧ gfeLatencyMetricsEnabled (run c w).1
    = lastFlagWrite (gfeLatencyMetricsEnabled w) (run c w).2
  ∧ readsAreCurrent (gfeLatencyMetricsEnabled w) (run c w).2 = true.
Proof.
  destruct c as [| | | | | |enable|ctx m n|ctx md k|ctx ct md k|ctx ct md k];
    cbn [run].
  1-7: unfold EnableStatViews, EnableGfeLatencyView,
         EnableGfeHeaderMissingCountView,
         EnableGfeLatencyAndHeaderMissingCountViews,
         DisableGfeLatencyAndHeaderMissingCountViews,
         getGFELatencyMetricsFlag, setGFELatencyMetricsFlag,
         Register, Unregister, bind, statsMu_Lock, statsMu_Unlock,
         statsMu_RLock, statsMu_RUnlock, readFlag, writeFlag, emit, ret;
       cbn [fst snd];
       try destruct (view_Register _ _) as [r err];
       cbn; rewrite ?Bool.eqb_reflx; done.
  - done.
  - destruct (captureGFELatencyStats_effects ctx md k w) as [Hw Hev].
    destruct (captureGFELatencyStats ctx md k w) as [[err w'] evs].
    cbn [world events fst snd] in *. subst w'.
    destruct (records_keep_the_flag (gfeLatencyMetricsEnabled w) evs Hev)
      as [-> ->].
    rewrite <- (app_nil_r evs). by rewrite guarded_records.
  - destruct (createContextAndCaptureGFELatencyMetrics_effects ctx ct md k w)
      as [Hw Hev].
    destruct (createContextAndCaptureGFELatencyMetrics ctx ct md k w)
      as [[err w'] evs].
    cbn [world events fst snd] in *. subst w'.
    destruct (records_keep_the_flag (gfeLatencyMetricsEnabled w) evs Hev)
      as [-> ->].
    rewrite <- (app_nil_r evs). by rewrite guarded_records.
  - unfold captureAtCallSite, getGFELatencyMetricsFlag, bind, statsMu_RLock,
      statsMu_RUnlock, readFlag, emit, ret. cbn [fst snd].
    destruct (gfeLatencyMetricsEnabled w) eqn:Eflag, ct as [ct'|];
      cbn [fst snd app]; try (cbn; rewrite ?Eflag; done).
    destruct (createContextAndCaptureGFELatencyMetrics_effects ctx ct' md k w)
      as [Hw Hev].
    destruct (createContextAndCaptureGFELatencyMetrics ctx ct' md k w)
      as [[err w'] evs].
    cbn [world events fst snd] in *. subst w'.
    destruct (records_keep_the_flag true evs Hev) as [Hl Hr].
    cbn. rewrite Hl, Hr, Eflag.
    rewrite <- (app_nil_r evs). by rewrite guarded_records.
Qed.

(** Any sequence of calls, run one after the other: the whole trace keeps
    the locking discipline (every write of the flag under the exclusive
    lock, every read under the shared lock, the mutex free at the end), the
    flag ends at the value written last, and every read returned the value
    written last before it. *)
Theorem sequences_track_the_flag (cs : list Call) (w : World) :
  guarded unlocked (runAll cs w).2 = true
  ∧ gfeLatencyMetricsEnabled (runAll cs w).1
    = lastFlagWrite (gfeLatencyMetricsEnabled w) (runAll cs w).2
  ∧ readsAreCurrent (gfeLatencyMetricsEnabled w) (runAll cs w).2 = true.
Proof.
  revert w. induction cs as [|c cs IH]; intros w; [done|].
  cbn [runAll].
  destruct (run_tracks_the_flag c w) as (Hg & Hf & Hr).
  destruct (run c w) as [w1 e1]. cbn [fst snd] in *.
  destruct (IH w1) as (Hg' & Hf' & Hr').
  destruct (runAll cs w1) as [w2 e2]. cbn [fst snd] in *.
  rewrite guarded_app, lastFlagWrite_app, readsAreCurrent_app by done.
  rewrite <- Hf, Hr. by repeat split.
Qed.

(** The capture does not look at the world: it never reads the enabled
    flag, so with the flag off it records exactly as with the flag on.  It
    leaves the flag and the registry alone and emits at most one
    measurement. *)
Theorem capture_is_blind_to_the_flag
    (ctx : tag.Context) (ct : commonTags) (md : metadata.MD)
    (keyMethod : string) (w w' : World) :
  (result (captureGFELatencyStats ctx md keyMethod w)
   = result (captureGFELatencyStats ctx md keyMethod w')
   ∧ events (captureGFELatencyStats ctx md keyMethod w)
     = events (captureGFELatencyStats ctx md keyMethod w')
   ∧ world (captureGFELatencyStats ctx md keyMethod w) = w
   ∧ (length (events (captureGFELatencyStats ctx md keyMethod w)) ≤ 1)%nat)
  ∧ (result (createContextAndCaptureGFELatencyMetrics ctx ct md keyMethod w)
     = result (createContextAndCaptureGFELatencyMetrics ctx ct md keyMethod w')
     ∧ events (createContextAndCaptureGFELatencyMetrics ctx ct md keyMethod w)
       = events
           (createContextAndCaptureGFELatencyMetrics ctx ct md keyMethod w')
     ∧ world (createContextAndCaptureGFELatencyMetrics ctx ct md keyMethod w)
       = w
     ∧ (length
          (events
             (createContextAndCaptureGFELatencyMetrics ctx ct md keyMethod w))
        ≤ 1)%nat).
Proof.
  assert (Hcap : ∀ ctx0,
    result (captureGFELatencyStats ctx0 md keyMethod w)
    = result (captureGFELatencyStats ctx0 md keyMethod w')
    ∧ events (captureGFELatencyStats ctx0 md keyMethod w)
      = events (captureGFELatencyStats ctx0 md keyMethod w')
    ∧ world (captureGFELatencyStats ctx0 md keyMethod w) = w
    ∧ (length (events (captureGFELatencyStats ctx0 md keyMethod w)) ≤ 1)%nat).
  { intros ctx0. unfold captureGFELatencyStats, recordStat, stats_Record,
      bind, emit, ret.
    repeat case_match; cbn; repeat split; lia. }
  split; [apply Hcap|].
  unfold createContextAndCaptureGFELatencyMetrics.
  destruct (tag.New ctx _) as [ctxGFE [e|]]; [|apply Hcap].
  cbn. repeat split; lia.
Qed.

(** Only the first value of the header counts: further values of
    [server-timing] change nothing. *)
Theorem capture_reads_the_first_value_only
    (ctx : tag.Context) (md md' : metadata.MD) (keyMethod v : string)
    (rest : list string) (w : World) :
  metadata.Get md "server-timing" = v :: rest →
  metadata.Get md' "server-timing" = [v] →
  captureGFELatencyStats ctx md keyMethod w
  = captureGFELatencyStats ctx md' keyMethod w.
Proof.
  intros E E'. unfold captureGFELatencyStats. rewrite E, E'. reflexivity.
Qed.

(** A latency is recorded exactly when the header is present, its first
    value starts with the prefix, [Atoi] accepts what follows, the method
    name is a valid tag value and the tags of the context are valid. *)
Theorem latency_recorded_iff
    (ctx : tag.Context) (md : metadata.MD) (keyMethod : string) (w : World) :
  (∃ tags n,
     events (captureGFELatencyStats ctx md keyMethod w)
     = [EvRecord tags (stats.mkMeasurement GFELatency n)])
  ↔ (∃ v rest,
       metadata.Get md "server-timing" = v :: rest
       ∧ strings.HasPrefix v "gfet4t7; dur=" = true
       ∧ (strconv.Atoi (strings.TrimPrefix v "gfet4t7; dur=")).2 = None
       ∧ tag.checkValue keyMethod = true
       ∧ tag.wellFormed ctx).
Proof.
  unfold captureGFELatencyStats, recordStat, stats_Record, bind, emit, ret.
  destruct (metadata.Get md "server-timing") as [|v rest] eqn:E.
  { cbn. split.
    - intros (tags & n & Hm).
      apply (f_equal (λ l, match l with
                           | [EvRecord _ m] => stats.Name (stats.measure m)
                           | _ => ""
                           end)) in Hm.
      vm_compute in Hm. discriminate Hm.
    - intros (? & ? & ? & _). done. }
  cbn [length Z.of_nat nth]. change (Z.pos _ =? 0) with false. cbv iota.
  destruct (strconv.Atoi _) as [n err] eqn:Ea.
  destruct (strings.HasPrefix v _) eqn:Ep; cbn [negb orb].
  2:{ split; [by intros (? & ? & ?)|].
      intros (? & ? & [= <- <-] & Hp & _). congruence. }
  destruct err as [e|]; cbn [notNil].
  { split; [by intros (? & ? & ?)|].
    intros (? & ? & [= <- <-] & _ & Ha & _). rewrite Ea in Ha. done. }
  unfold tag.New, tag.NewContext. cbn [tag.FromContext tag.tags].
  case_bool_decide as Hwf; cbn [tag.applyMutators tag.Mutate].
  2:{ split; [by intros (? & ? & ?)|].
      intros (? & ? & _ & _ & _ & _ & Hctx). done. }
  destruct (tag.checkValue keyMethod) eqn:Ek.
  2:{ split; [by intros (? & ? & ?)|].
      intros (? & ? & _ & _ & _ & ? & _). done. }
  split; [|by eexists _, _].
  intros _. exists v, rest. rewrite Ea. done.
Qed.




End SpannerSequences.

Section SessionClient.
Context `{ViewRegistry} `{Repository}.
Import spanner.

(** From a session client to the recorded latency: when the database name
    of the client parses, its id, the database, the instance and
    [version.Repo] are valid tag values, and the header is well formed, the
    latency is recorded under those four tags and the method tag; the other
    tags of the context are kept.  The value recorded is the float64 of the
    number in the header, which is the number itself up to 2^53. *)
Theorem session_client_latency_tags
    (sc : sessionClient) (ctx : tag.Context) (md : metadata.MD)
    (keyMethod N project inst db : string) (rest : list string) (w : World) :
  parseDatabaseName (sc_database sc) = (project, inst, db, None) →
  tag.checkValue (sc_id sc) = true →
  tag.checkValue db = true →
  tag.checkValue inst = true →
  tag.checkValue version_Repo = true →
  tag.checkValue keyMethod = true →
  tag.wellFormed ctx →
  metadata.Get md "server-timing" = ("gfet4t7; dur=" +:+ N) :: rest →
  isDecimal N = true →
  decimalValue N < 2 ^ 63 →
  ∃ (ct : commonTags) (t : gmap string string) (m : stats.Measurement),
    getCommonTags sc = Some ct
    ∧ createContextAndCaptureGFELatencyMetrics ctx ct md keyMethod w
      = (None, w, [EvRecord (Some t) m])
    ∧ stats.measure m = GFELatency
    ∧ stats.value m = stats.float64 (decimalValue N)
    ∧ (decimalValue N ≤ 2 ^ 53 → stats.value m = decimalValue N)
    ∧ t !! tagKeyClientID = Some (sc_id sc)
    ∧ t !! tagKeyDatabase = Some db
    ∧ t !! tagKeyInstance = Some inst
    ∧ t !! tagKeyLibVersion = Some version_Repo
    ∧ t !! tagKeyMethod
      = Some (default keyMethod (tag.FromContext ctx ≫= (.!! tagKeyMethod)))
    ∧ ∀ k, k ∉ tagCommonKeys ++ [tagKeyMethod] →
        t !! k = tag.FromContext ctx ≫= (.!! k).
Proof.
  intros Hparse Hid Hdb Hinst Hver Hm Hctx E HN Hfit.
  pose proof (decimalValue_nonneg N HN) as H0N.
  eexists _, _, (stats.M GFELatency (decimalValue N)).
  split; [|split; [|split; [reflexivity|split; [reflexivity|split]]]].
  3:{ intros Hsmall. cbn [stats.M stats.value]. apply float64_exact. lia. }
  - unfold getCommonTags. rewrite Hparse. reflexivity.
  - unfold createContextAndCaptureGFELatencyMetrics, tag.New.
    rewrite bool_decide_eq_true_2 by exact Hctx.
    cbn [tag.applyMutators tag.Mutate clientID database instance libVersion].
    rewrite Hid, Hdb, Hinst, Hver. cbv beta iota zeta.
    unfold captureGFELatencyStats. rewrite E.
    cbn [length Z.of_nat nth]. change (Z.pos _ =? 0) with false. cbv iota.
    rewrite TrimPrefix_app, HasPrefix_app, (Atoi_decimal N HN Hfit).
    cbn [negb orb notNil].
    unfold tag.New, tag.NewContext. cbn [tag.FromContext tag.tags default].
    rewrite bool_decide_eq_true_2.
    2:{ unfold tag.upsert. repeat apply map_Forall_insert_2; try done;
        unfold tag.validEntry; by rewrite ?Hid, ?Hdb, ?Hinst, ?Hver. }
    cbn [tag.applyMutators tag.Mutate]. rewrite Hm.
    rewrite int64_small by lia. reflexivity.
  - pose proof (lookup_common_tags (default ∅ (tag.FromContext ctx))
                  (sc_id sc) db inst version_Repo) as Ht.
    cbv zeta in Ht. destruct Ht as (? & ? & ? & ?).
    rewrite !lookup_tag_insert_ne by done.
    repeat split; try done.
    + rewrite lookup_tag_insert. f_equal. unfold tag.upsert, id.
      rewrite !lookup_insert_ne by done.
      destruct (tag.FromContext ctx) as [m|]; simpl; [done|].
      by rewrite lookup_empty.
    + intros k Hk. unfold tagCommonKeys in Hk. cbn [app] in Hk.
      rewrite !not_elem_of_cons in Hk.
      destruct Hk as (? & ? & ? & ? & ? & _).
      rewrite lookup_tag_insert_ne by done.
      unfold tag.upsert, id. rewrite !lookup_insert_ne by done.
      destruct (tag.FromContext ctx) as [m|]; simpl; [done|].
      by rewrite lookup_empty.
Qed.

End SessionClient.

(** ** Package compute: construction of a client *)

Lemma headerPairs_parity (keyval : list string) :
  (is_Some (gax.headerPairs keyval) ↔ Nat.even (length keyval) = true)
  ∧ ∀ x, is_Some (gax.headerPairs (x :: keyval))
         ↔ Nat.even (length (x :: keyval)) = true.
Proof.
  induction keyval as [|k keyval [IH1 IH2]].
  - split; [split; [done|by eexists]|]. intros x. cbn. split; [|done].
    by intros [? ?].
  - split; [apply IH2|]. intros x. cbn [gax.headerPairs length Nat.even].
    rewrite fmap_is_Some. exact IH1.
Qed.

Lemma headerPairs_app (a b : list string) (pa : list string) :
  gax.headerPairs a = Some pa →
  gax.headerPairs (a ++ b) = (pa ++.) <$> gax.headerPairs b.
Proof.
  revert pa.
  assert (Hboth : ∀ a,
    (∀ pa, gax.headerPairs a = Some pa →
           gax.headerPairs (a ++ b) = (pa ++.) <$> gax.headerPairs b)
    ∧ ∀ x pa, gax.headerPairs (x :: a) = Some pa →
              gax.headerPairs ((x :: a) ++ b)
              = (pa ++.) <$> gax.headerPairs b).
  { clear a. induction a as [|k a [IH1 IH2]].
    - split; [|done]. intros pa [= <-]. cbn. by destruct (gax.headerPairs b).
    - split; [apply IH2|]. intros x pa. cbn [gax.headerPairs app].
      destruct (gax.headerPairs a) as [pa'|] eqn:Ea; [|done].
      intros [= <-]. rewrite (IH1 pa' eq_refl).
      by destruct (gax.headerPairs b). }
  apply Hboth.
Qed.

Section Construction.
Context `{compute.Protobuf} `{!compute.Transport} `{!compute.Options}
  `{!compute.Construction}.
Import compute.

Lemma setGoogleClientInfo_even (c : disksRESTClient) (keyval pairs : list string) :
  gax.headerPairs keyval = Some pairs →
  setGoogleClientInfo c keyval
  = Some (mkClient (endpoint c) (httpClient c)
            {["x-goog-api-client" :=
                [String.concat " "
                   (("gl-go/" +:+ versionGo) :: pairs
                    ++ ["gapic/" +:+ versionClient; "gax/" +:+ gax_Version;
                        "rest/UNKNOWN"])]]}).
Proof.
  intros Hp. unfold setGoogleClientInfo, gax.XGoogHeader.
  rewrite <- app_assoc. cbn [app gax.headerPairs].
  rewrite (headerPairs_app keyval _ pairs Hp). cbn.
  by rewrite insert_empty.
Qed.

(** [setGoogleClientInfo] with an even number of strings replaces the
    metadata of the client by the single key [x-goog-api-client], whose
    value lists [gl-go/<go version>], the given pairs and
    [gapic/<client> gax/<gax> rest/UNKNOWN]; it leaves the endpoint and the
    HTTP client alone.  With an odd number of strings it panics. *)
Theorem setGoogleClientInfo_spec (c : disksRESTClient) (keyval : list string) :
  (Nat.even (length keyval) = false → setGoogleClientInfo c keyval = None)
  ∧ (Nat.even (length keyval) = true →
     ∃ pairs c',
       gax.headerPairs keyval = Some pairs
       ∧ setGoogleClientInfo c keyval = Some c'
       ∧ endpoint c' = endpoint c
       ∧ httpClient c' = httpClient c
       ∧ xGoogMetadata c'
         = {["x-goog-api-client" :=
               [String.concat " "
                  (("gl-go/" +:+ versionGo) :: pairs
                   ++ ["gapic/" +:+ versionClient; "gax/" +:+ gax_Version;
                       "rest/UNKNOWN"])]]}).
Proof.
  split.
  - intros Hodd. unfold setGoogleClientInfo, gax.XGoogHeader.
    destruct (gax.headerPairs _) as [ps|] eqn:E; [|done].
    exfalso. assert (Hs : is_Some (gax.headerPairs
      ((["gl-go"; versionGo] ++ keyval)
       ++ ["gapic"; versionClient; "gax"; gax_Version; "rest"; "UNKNOWN"])))
      by (by eexists).
    apply (proj1 (headerPairs_parity _)) in Hs.
    rewrite !length_app in Hs. cbn [length] in Hs.
    rewrite Nat.add_comm in Hs. cbn [Nat.add Nat.even] in Hs. congruence.
  - intros Heven.
    destruct (proj2 (proj1 (headerPairs_parity keyval)) Heven) as [pairs Hp].
    eexists pairs, _. split; [done|].
    split; [by apply setGoogleClientInfo_even|]. done.
Qed.

(** [NewDisksRESTClient] hands the defaults of the package and then the
    options of the caller to the transport layer.  An error of the
    transport layer is returned with a nil client; otherwise the client
    uses the endpoint of the transport layer, has empty call options, and
    every request it sends is JSON and names the library in
    [x-goog-api-client]. *)
Theorem NewDisksRESTClient_spec (opts : list UserClientOption) :
  (∀ e,
     httptransport_NewClient (defaultDisksRESTClientOptions ++ (Given <$> opts))
     = inr e →
     NewDisksRESTClient opts = Some (None, Some e))
  ∧ (∀ httpClient0 endpoint0,
       httptransport_NewClient
         (defaultDisksRESTClientOptions ++ (Given <$> opts))
       = inl (httpClient0, endpoint0) →
       ∃ dc,
         NewDisksRESTClient opts = Some (Some dc, None)
         ∧ endpoint (internalClient dc) = endpoint0
         ∧ httpClient (internalClient dc) = Some httpClient0
         ∧ CallOptions dc
           = mkDisksCallOptions [] [] [] [] [] [] [] [] [] [] [] [] []
         ∧ ∀ op req answer,
             EvDo req answer ∈ trace_of (invoke dc op) →
             http.Header req !! "Content-Type" = Some ["application/json"]
             ∧ http.Header req !! "x-goog-api-client"
               = Some ["gl-go/" +:+ versionGo +:+ " gapic/" +:+ versionClient
                       +:+ " gax/" +:+ gax_Version +:+ " rest/UNKNOWN"]).
Proof.
  split.
  - intros e He. unfold NewDisksRESTClient. by rewrite He.
  - intros cl ep Hnew. unfold NewDisksRESTClient. rewrite Hnew.
    rewrite (setGoogleClientInfo_even _ [] [] eq_refl). cbn [mbind option_bind].
    eexists. split; [reflexivity|]. cbn [internalClient endpoint httpClient].
    do 3 (split; [reflexivity|]).
    intros op req answer Hin. unfold invoke in Hin. cbn [internalClient] in Hin.
    destruct (sent_request_headers _ _ _ _ Hin) as [Hct Hx].
    split; [exact Hct|].
    erewrite Hx; [reflexivity|done|]. cbn [xGoogMetadata].
    apply lookup_singleton_eq.
Qed.

End Construction.

(** ** The further theorems at concrete inputs *)

(** C10 on [Get] and on [AddResourcePolicies] against a server that
    answers 404. *)
Lemma non_OK_status_is_an_error_witness :
  (∃ trace,
     @compute.call testing.protobuf testing.transport testing.client404
       (compute.OpGet (Some testing.getRequest))
     = compute.Returned None (Some (compute.Errorf "404 Not Found")) trace
     ∧ existsb compute.isReadAll trace = false
     ∧ existsb compute.isUnmarshal trace = false)
  ∧ (∃ trace,
       @compute.call testing.protobuf testing.transport testing.client404
         (compute.OpAddResourcePolicies (Some testing.addPoliciesRequest))
       = compute.Returned None (Some (compute.Errorf "404 Not Found")) trace
       ∧ existsb compute.isReadAll trace = false
       ∧ existsb compute.isUnmarshal trace = false).
Proof.
  split.
  - destruct (@non_OK_status_is_an_error testing.protobuf testing.transport
                testing.client404 (compute.OpGet (Some testing.getRequest))
                [] (url.mkURL "https" "compute.googleapis.com" "" "" "")
                (http.mkRequest "GET"
                   "https://compute.googleapis.com/compute/v1/projects/proj/zones/zone-a/disks/disk-1"
                   [] ∅)
                (testing.server 404 "404 Not Found")
                (@compute.mkResponse testing.protobuf "404 Not Found" 404 []))
      as (Hrun & Hread & Hunm).
    1-5: reflexivity.
    + vm_compute. discriminate.
    + rewrite Hrun in Hread, Hunm. eexists. split; [exact Hrun|]. by split.
  - destruct (@non_OK_status_is_an_error testing.protobuf testing.transport
                testing.client404
                (compute.OpAddResourcePolicies (Some testing.addPoliciesRequest))
                [] (url.mkURL "https" "compute.googleapis.com" "" "" "")
                (http.mkRequest "POST"
                   "https://compute.googleapis.com/compute/v1/projects/proj/zones/zone-a/disks/disk-1/addResourcePolicies?requestId=req-1"
                   [] ∅)
                (testing.server 404 "404 Not Found")
                (@compute.mkResponse testing.protobuf "404 Not Found" 404 []))
      as (Hrun & Hread & Hunm).
    1-5: reflexivity.
    + vm_compute. discriminate.
    + rewrite Hrun in Hread, Hunm. eexists. split; [exact Hrun|]. by split.
Defined.

Lemma requests_carry_client_headers_witness :
  http.Header testing.sentGet !! "Content-Type" = Some ["application/json"]
  ∧ http.Header testing.sentGet !! "x-goog-api-client"
    = Some ["gl-go/1.17.5 gapic/20211201"].
Proof.
  destruct (@requests_carry_client_headers testing.protobuf testing.transport
              testing.client200 (compute.OpGet (Some testing.getRequest))
              testing.sentGet
              (inl (@compute.mkResponse testing.protobuf "200 OK" 200
                      [Byte.x7b; Byte.x7d; Byte.x0a])))
    as [Hct Hx].
  - vm_compute. repeat constructor.
  - split; [exact Hct|]. apply Hx; [discriminate|]. vm_compute. reflexivity.
Defined.

Lemma marshal_error_sends_nothing_witness :
  @compute.call testing.protobuf testing.transportNoMarshal testing.client404
    (compute.OpGet (Some testing.getRequest))
  = compute.Returned None (Some (compute.CalleeError "proto: invalid UTF-8")) [].
Proof.
  apply (@marshal_error_sends_nothing testing.protobuf
           testing.transportNoMarshal).
  reflexivity.
Defined.

Lemma unparsable_endpoint_panics_witness :
  @compute.call testing.protobuf testing.transportNoParse testing.client404
    (compute.OpGet (Some testing.getRequest))
  = compute.Panicked [].
Proof.
  apply (@unparsable_endpoint_panics testing.protobuf testing.transportNoParse
           testing.client404 (compute.OpGet (Some testing.getRequest)) []
           (compute.CalleeError "parse: invalid URL")); reflexivity.
Defined.

Lemma request_of_every_operation_witness :
  head (compute.trace_of
          (@compute.call testing.protobuf testing.transport testing.client404
             (compute.OpAggregatedList (Some testing.aggregatedRequest))))
  = Some (compute.EvNewRequest "GET"
            (url.mkURL "https" "compute.googleapis.com"
               "/compute/v1/projects/proj/aggregated/disks"
               "filter=zone+eq+us-.%2A&includeAllScopes=true" "")
            []).
Proof.
  rewrite (@request_of_every_operation testing.protobuf testing.transport
             testing.client404
             (compute.OpAggregatedList (Some testing.aggregatedRequest)) []
             (url.mkURL "https" "compute.googleapis.com" "" "" "")
             eq_refl eq_refl).
  vm_compute. reflexivity.
Defined.



Lemma one_exchange_and_body_closed_witness :
  last (compute.trace_of
          (@compute.call testing.protobuf testing.transport testing.client200
             (compute.OpGet (Some testing.getRequest))))
  = Some (@compute.EvClose testing.protobuf [Byte.x7b; Byte.x7d; Byte.x0a])
  ∧ length
      (List.filter compute.isClose
         (compute.trace_of
            (@compute.call testing.protobuf testing.transport testing.client200
               (compute.OpGet (Some testing.getRequest)))))
    = 1%nat.
Proof.
  apply (proj1 (proj2 (@one_exchange_and_body_closed testing.protobuf
                         testing.transport testing.client200
                         (compute.OpGet (Some testing.getRequest))))
           testing.sentGet
           (@compute.mkResponse testing.protobuf "200 OK" 200
              [Byte.x7b; Byte.x7d; Byte.x0a])).
  vm_compute. repeat constructor.
Defined.

Lemma query_string_is_escaped_witness :
  ∃ u,
    head (compute.trace_of
            (@compute.call testing.protobuf testing.transport testing.client404
               (compute.OpList (Some testing.listRequest))))
    = Some (compute.EvNewRequest "GET" u [])
    ∧ url.RawQuery u
      = String.concat "&"
          ["filter=name+%3D+a%26b"; "maxResults=5"; "pageToken=tok";
           "returnPartialSuccess=true"]
    ∧ Forall (λ p, ∃ k v, p = k +:+ "=" +:+ v
                          ∧ url.allEscaped k = true ∧ url.allEscaped v = true)
        ["filter=name+%3D+a%26b"; "maxResults=5"; "pageToken=tok";
         "returnPartialSuccess=true"].
Proof.
  apply (@query_string_is_escaped testing.protobuf testing.transport
           testing.client404 (compute.OpList (Some testing.listRequest)) []
           (url.mkURL "https" "compute.googleapis.com" "" "" "")).
  - reflexivity.
  - reflexivity.
  - vm_compute. reflexivity.
Defined.

Lemma setGoogleClientInfo_spec_witness :
  @compute.setGoogleClientInfo testing.protobuf testing.noOptions
    testing.construction testing.client404 ["app"]
  = None
  ∧ ∃ pairs c',
      gax.headerPairs ["app"; "1.0"] = Some pairs
      ∧ @compute.setGoogleClientInfo testing.protobuf testing.noOptions
          testing.construction testing.client404 ["app"; "1.0"]
        = Some c'
      ∧ compute.endpoint c' = compute.endpoint testing.client404
      ∧ compute.httpClient c' = compute.httpClient testing.client404
      ∧ compute.xGoogMetadata c'
        = {["x-goog-api-client" :=
              [String.concat " "
                 (("gl-go/" +:+ "1.17.5") :: pairs
                  ++ ["gapic/" +:+ "20211201"; "gax/" +:+ "2.1.1";
                      "rest/UNKNOWN"])]]}.
Proof.
  split.
  - apply (proj1 (@setGoogleClientInfo_spec testing.protobuf testing.noOptions
                    testing.construction testing.client404 ["app"])).
    reflexivity.
  - apply (proj2 (@setGoogleClientInfo_spec testing.protobuf testing.noOptions
                    testing.construction testing.client404 ["app"; "1.0"])).
    reflexivity.
Defined.

Lemma NewDisksRESTClient_spec_witness :
  ∃ dc,
    @compute.NewDisksRESTClient testing.protobuf testing.noOptions
      testing.construction []
    = Some (Some dc, None)
    ∧ compute.endpoint (compute.internalClient dc)
      = "https://compute.googleapis.com".
Proof.
  destruct (proj2 (@NewDisksRESTClient_spec testing.protobuf testing.transport
                     testing.noOptions testing.construction [])
              (testing.server 404 "404 Not Found")
              "https://compute.googleapis.com" eq_refl)
    as (dc & Hnew & Hep & _).
  exists dc. split; [exact Hnew|exact Hep].
Defined.

Lemma capture_reads_the_first_value_only_witness :
  spanner.captureGFELatencyStats (tag.mkContext None)
    {["server-timing" := ["gfet4t7; dur=42"; "gfet4t7; dur=7"]]} "Read"
    testing.world0
  = spanner.captureGFELatencyStats (tag.mkContext None)
      {["server-timing" := ["gfet4t7; dur=42"]]} "Read" testing.world0.
Proof.
  apply (@capture_reads_the_first_value_only testing.memoryRegistry
           (tag.mkContext None) _ _ "Read" "gfet4t7; dur=42"
           ["gfet4t7; dur=7"]).
  - vm_compute. reflexivity.
  - vm_compute. reflexivity.
Defined.

Lemma latency_recorded_iff_witness :
  ∃ tags n,
    spanner.events
      (spanner.captureGFELatencyStats (tag.mkContext None)
         {["server-timing" := ["gfet4t7; dur=42"]]} "Read" testing.world0)
    = [spanner.EvRecord tags (stats.mkMeasurement spanner.GFELatency n)].
Proof.
  apply (proj2 (@latency_recorded_iff testing.memoryRegistry
                  (tag.mkContext None)
                  {["server-timing" := ["gfet4t7; dur=42"]]} "Read"
                  testing.world0)).
  exists "gfet4t7; dur=42", [].
  repeat split; try (vm_compute; reflexivity).
  apply (bool_decide_unpack _). vm_compute. exact I.
Defined.




Lemma session_client_latency_tags_witness :
  ∃ (ct : spanner.commonTags) (t : gmap string string)
    (m : stats.Measurement),
    @spanner.getCommonTags testing.repository
      (spanner.mkSessionClient "client-1" "projects/p/instances/i/databases/d")
    = Some ct
    ∧ spanner.createContextAndCaptureGFELatencyMetrics (tag.mkContext None)
        ct {["server-timing" := ["gfet4t7; dur=42"]]} "Read" testing.world0
      = (None, testing.world0, [spanner.EvRecord (Some t) m])
    ∧ stats.measure m = spanner.GFELatency
    ∧ stats.value m = 42
    ∧ t !! spanner.tagKeyDatabase = Some "d"
    ∧ t !! spanner.tagKeyInstance = Some "i".
Proof.
  destruct (@session_client_latency_tags testing.memoryRegistry
              testing.repository
              (spanner.mkSessionClient "client-1"
                 "projects/p/instances/i/databases/d")
              (tag.mkContext None)
              {["server-timing" := ["gfet4t7; dur=42"]]} "Read" "42" "p" "i"
              "d" [] testing.world0)
    as (ct & t & m & Hct & Hrun & Hmeasure & _ & Hvalue & _ & Hdb & Hinst
        & _).
  1-6: reflexivity.
  - apply (bool_decide_unpack _). vm_compute. exact I.
  - vm_compute. reflexivity.
  - reflexivity.
  - reflexivity.
  - exists ct, t, m. split; [exact Hct|]. split; [exact Hrun|].
    split; [exact Hmeasure|].
    split; [apply Hvalue; vm_compute; discriminate|].
    by split.
Defined.
